(** * corporate-transparency-analysis: graph assembly, aggregation and the
      analyze endpoint

    A shallow embedding of
    - [src/components/NetworkGraph.tsx]    (the [graphData] memo),
    - [src/components/EntityTypeChart.tsx] (the three grouping memos),
    - [src/app/api/analyze/route.ts] and [frontend/app/api/analyze/route.ts]
      (the [POST] handlers),
    followed by the properties of the specification that concern them. *)

From Stdlib Require Import List String Ascii Bool Arith ZArith Lia.
From Stdlib Require Import Sorted Permutation.
Import ListNotations.

Local Open Scope string_scope.
Local Open Scope list_scope.

(** ** JavaScript [Map] with string keys

    A [Map] iterates in insertion order and [set] on a key already present
    keeps that key's position, so the model is an association list whose
    keys are pairwise distinct. *)

Module JsMap.

Section WithValue.

Context {V : Type}.

Definition t : Type := list (string * V).

Definition empty : t := [].

Fixpoint get (m : t) (k : string) : option V :=
  match m with
  | [] => None
  | (k', v) :: m' => if String.eqb k' k then Some v else get m' k
  end.

Definition has (m : t) (k : string) : bool :=
  match get m k with
  | Some _ => true
  | None => false
  end.

Fixpoint set (m : t) (k : string) (v : V) : t :=
  match m with
  | [] => [(k, v)]
  | (k', v') :: m' =>
      if String.eqb k' k then (k', v) :: m' else (k', v') :: set m' k v
  end.

Definition keys (m : t) : list string := map fst m.

Definition values (m : t) : list V := map snd m.

Definition entries (m : t) : list (string * V) := m.

End WithValue.

Arguments t : clear implicits.

End JsMap.

(** ** Data model

    Both components declare [type], [name] and [source] as strings.  The
    payload is parsed JSON, and the code itself guards the discriminators with
    [|| "unknown"], so a discriminator is modelled as [option string], [None]
    standing for a missing ([undefined] or [null]) field.  Names are the keys
    of the node map and are plain strings. *)

Record Entity : Type := mkEntity {
  e_type : option string;
  e_name : string;
  e_source : option string
}.

Record Relationship : Type := mkRelationship {
  r_from : string;
  r_to : string;
  r_type : option string
}.

(** ** NetworkGraph.tsx *)

Module NetworkGraph.

Record Node : Type := mkNode {
  id : string;
  name : string;
  type : option string;
  source : option string;
  group : Z
}.

Record Link : Type := mkLink {
  l_source : string;
  l_target : string;
  l_type : option string
}.

Record GraphData : Type := mkGraphData {
  nodes : list Node;
  links : list Link
}.

(** [entity.type === "company"], false on a missing field. *)
Definition type_is (d : option string) (s : string) : bool :=
  match d with
  | Some x => String.eqb x s
  | None => false
  end.

Definition group_of (e : Entity) : Z :=
  if type_is (e_type e) "company" then 1%Z
  else if type_is (e_type e) "officer" then 2%Z
  else 3%Z.

Definition entity_node (e : Entity) : Node :=
  {| id := e_name e;
     name := e_name e;
     type := e_type e;
     source := e_source e;
     group := group_of e |}.

Definition placeholder (x : string) : Node :=
  {| id := x;
     name := x;
     type := Some "unknown";
     source := Some "unknown";
     group := 0%Z |}.

(** Body of [entities.forEach]. *)
Definition add_entity (nodesMap : JsMap.t Node) (entity : Entity)
  : JsMap.t Node :=
  if negb (JsMap.has nodesMap (e_name entity))
  then JsMap.set nodesMap (e_name entity) (entity_node entity)
  else nodesMap.

(** One arm of the body of [links.forEach]. *)
Definition add_endpoint (nodesMap : JsMap.t Node) (x : string)
  : JsMap.t Node :=
  if negb (JsMap.has nodesMap x)
  then JsMap.set nodesMap x (placeholder x)
  else nodesMap.

Definition add_link (nodesMap : JsMap.t Node) (link : Link) : JsMap.t Node :=
  add_endpoint (add_endpoint nodesMap (l_source link)) (l_target link).

Definition rel_link (rel : Relationship) : Link :=
  {| l_source := r_from rel;
     l_target := r_to rel;
     l_type := r_type rel |}.

Definition nodesMap_of (entities : list Entity) (ls : list Link)
  : JsMap.t Node :=
  fold_left add_link ls (fold_left add_entity entities JsMap.empty).

Definition graphData (entities : list Entity)
  (relationships : list Relationship) : GraphData :=
  let links := map rel_link relationships in
  {| nodes := JsMap.values (nodesMap_of entities links);
     links := links |}.

(** Reading a produced graph back as input: a node is an [Entity] by its
    [type], [name] and [source] fields; a link names its endpoints [source]
    and [target]. *)
Definition node_entity (n : Node) : Entity :=
  {| e_type := type n; e_name := name n; e_source := source n |}.

Definition link_rel (l : Link) : Relationship :=
  {| r_from := l_source l; r_to := l_target l; r_type := l_type l |}.

Definition regraph (g : GraphData) : GraphData :=
  graphData (map node_entity (nodes g)) (map link_rel (links g)).

Definition has_name (k : string) (n : Node) : bool := String.eqb (name n) k.

Definition touches (k : string) (l : Link) : bool :=
  String.eqb (l_source l) k || String.eqb (l_target l) k.

Definition named (k : string) (e : Entity) : bool := String.eqb (e_name e) k.

(** A node read back as an entity and turned into a node again. *)
Definition renode (n : Node) : Node := entity_node (node_entity n).

(** Every key is the [name] and the [id] of its node, and no key repeats. *)
Definition well_keyed (m : JsMap.t Node) : Prop :=
  NoDup (JsMap.keys m)
  /\ Forall (fun p => name (snd p) = fst p /\ id (snd p) = fst p) m.

(** [n'] is [n] with its group worked out again from its type: the group
    0 of a synthesized node becomes 3, every other group stays. *)
Definition reassembled (n' n : Node) : Prop :=
  id n' = id n /\ name n' = name n /\ type n' = type n
  /\ source n' = source n
  /\ group n' = (if Z.eqb (group n) 0 then 3 else group n)%Z.

End NetworkGraph.

(** ** [Array.prototype.sort]

    The language guarantees a stable sort; for a consistent comparator the
    result is then determined by the input whatever algorithm the engine
    runs.  The model is the stable insertion sort: an element moves behind
    exactly those elements the comparator orders strictly before it. *)

Module JsArray.

Section WithElement.

Context {A : Type}.

Variable compareFn : A -> A -> Z.

Fixpoint insert (x : A) (l : list A) : list A :=
  match l with
  | [] => [x]
  | y :: l' =>
      if (0 <? compareFn x y)%Z then y :: insert x l' else x :: y :: l'
  end.

Fixpoint sort (l : list A) : list A :=
  match l with
  | [] => []
  | x :: l' => insert x (sort l')
  end.

End WithElement.

End JsArray.

(** ** EntityTypeChart.tsx *)

Module EntityTypeChart.

Record Datum : Type := mkDatum {
  name : string;
  value : nat
}.

(** [d || "unknown"]: a missing field and the empty string are falsy. *)
Definition or_unknown (d : option string) : string :=
  match d with
  | Some s => if String.eqb s EmptyString then "unknown" else s
  | None => "unknown"
  end.

(** [typeMap.get(type) || 0]: [undefined] and [0] are falsy. *)
Definition or_zero (c : option nat) : nat :=
  match c with
  | Some n => if Nat.eqb n 0 then 0 else n
  | None => 0
  end.

(** [typeMap.set(type, (typeMap.get(type) || 0) + 1)] *)
Definition bump (typeMap : JsMap.t nat) (k : string) : JsMap.t nat :=
  JsMap.set typeMap k (or_zero (JsMap.get typeMap k) + 1).

(** [([name, value]) => ({ name, value })] *)
Definition to_datum (p : string * nat) : Datum :=
  {| name := fst p; value := snd p |}.

(** [(a, b) => b.value - a.value] *)
Definition by_value_desc (a b : Datum) : Z :=
  (Z.of_nat (value b) - Z.of_nat (value a))%Z.

(** [Array.from(typeMap.entries()).map(...).sort(...)] *)
Definition ranked (typeMap : JsMap.t nat) : list Datum :=
  JsArray.sort by_value_desc (map to_datum (JsMap.entries typeMap)).

Definition entityTypeData (entities : list Entity) : list Datum :=
  ranked
    (fold_left (fun typeMap entity => bump typeMap (or_unknown (e_type entity)))
       entities JsMap.empty).

Definition relationshipTypeData (relationships : list Relationship)
  : list Datum :=
  ranked
    (fold_left (fun typeMap rel => bump typeMap (or_unknown (r_type rel)))
       relationships JsMap.empty).

Definition sourceData (entities : list Entity) : list Datum :=
  ranked
    (fold_left
       (fun sourceMap entity => bump sourceMap (or_unknown (e_source entity)))
       entities JsMap.empty).

(** Position at which [k] is first seen in [ks] ([length ks] if never). *)
Fixpoint first_index (k : string) (ks : list string) : nat :=
  match ks with
  | [] => 0
  | x :: ks' => if String.eqb x k then 0 else S (first_index k ks')
  end.

(** The order the charts are claimed to follow over the discriminators
    [ks] of the input: larger count first, equal counts by first sight. *)
Definition ranked_before (ks : list string) (a b : Datum) : Prop :=
  value b < value a
  \/ (value a = value b /\ first_index (name a) ks < first_index (name b) ks).

(** A chart is the ranking of its discriminators: it follows
    [ranked_before], and no other arrangement of its bars does. *)
Definition ranking_of (ks : list string) (out : list Datum) : Prop :=
  StronglySorted (ranked_before ks) out
  /\ forall l, Permutation l out -> StronglySorted (ranked_before ks) l ->
               l = out.

Definition weigh (f : Datum -> nat) (out : list Datum) : nat :=
  fold_right (fun d acc => f d + acc) 0 out.

(** Sum of the counts of a chart. *)
Definition total (out : list Datum) : nat := weigh value out.

(** Count a chart shows under the name [k], 0 when it has no such bar. *)
Definition count_under (k : string) (out : list Datum) : nat :=
  weigh (fun d => if String.eqb (name d) k then value d else 0) out.

Definition occurrences (k : string) (ks : list string) : nat :=
  List.length (filter (fun x => String.eqb x k) ks).

(** A discriminator that is missing, empty, or the text "unknown". *)
Definition in_unknown_bucket (d : option string) : bool :=
  match d with
  | Some s => String.eqb s EmptyString || String.eqb s "unknown"
  | None => true
  end.

(** The chart [out] of the discriminators [ds] has one bar per name, none
    of them under the empty name, and shows under "unknown" every missing
    or empty discriminator together with the literal ones. *)
Definition unknown_coalesced (ds : list (option string)) (out : list Datum)
  : Prop :=
  (forall d, In d out -> name d <> EmptyString)
  /\ NoDup (map name out)
  /\ count_under "unknown" out = List.length (filter in_unknown_bucket ds)
  /\ count_under EmptyString out = 0.

End EntityTypeChart.

(** ** The analysis summary *)

Module Summary.

Record t : Type := mkSummary {
  total_entities : nat;
  total_relationships : nat
}.

(** Modelled from the spec: the [summary] object is computed by the backend
    script [integrated_analysis.py], which is not among the sources; the
    front end only displays [result.summary.total_entities] and
    [result.summary.total_relationships].  The specification gives
    [summary.total_entities == len(entities)] and
    [summary.total_relationships == len(relationships)]. *)
Definition summary (entities : list Entity)
  (relationships : list Relationship) : t :=
  {| total_entities := List.length entities;
     total_relationships := List.length relationships |}.

End Summary.

(** ** Values and effects of the route handlers *)

Module Js.

(** A parsed JSON value.  [JNumber] holds the number after parsing; integral
    values are represented, and any other number behaves in the handlers
    like a non-zero integer (it is truthy). *)
#[local] Set Warnings "-register-all".

Inductive json : Type :=
| JNull
| JBool (b : bool)
| JNumber (z : Z)
| JString (s : string)
| JArray (items : list json)
| JObject (fields : list (string * json)).

(** Own property of an object built by [JSON.parse]: of several equal keys
    the last one stays. *)
Fixpoint own_property (fields : list (string * json)) (k : string)
  : option json :=
  match fields with
  | [] => None
  | (k', v) :: fields' =>
      match own_property fields' k with
      | Some w => Some w
      | None => if String.eqb k' k then Some v else None
      end
  end.

(** A property read by destructuring, [None] being [undefined].  None of the
    names read by the handlers is defined on the prototypes of arrays,
    strings, numbers or booleans. *)
Definition property (v : json) (k : string) : option json :=
  match v with
  | JObject fields => own_property fields k
  | _ => None
  end.

(** [ToBoolean] *)
Definition truthy (v : option json) : bool :=
  match v with
  | None => false
  | Some JNull => false
  | Some (JBool b) => b
  | Some (JNumber z) => negb (Z.eqb z 0)
  | Some (JString s) => negb (String.eqb s EmptyString)
  | Some (JArray _) => true
  | Some (JObject _) => true
  end.

(** A thrown value: an [Error] with its [message] and, when it has one, its
    [stderr] property; or anything else, with its [String(...)] form. *)
Inductive thrown : Type :=
| ErrorObj (message : string) (stderr : option string)
| NotError (text : string).

Inductive Effect : Type :=
| Exec (command : string)
| ReadFile (path : string).

(** What the handlers take from the platform. *)
Record Runtime : Type := mkRuntime {
  cwd : string;
  path_join : list string -> string;
  execAsync : string -> thrown + (string * string);
  readFile : string -> thrown + string;
  JSON_parse : string -> thrown + json;
  ToString : option json -> string;
  null_destructure : thrown
}.

(** Body of the JSON the handlers answer with, absent fields being [None];
    [r_data] is [Some JNull] for [data: null]. *)
Record Response : Type := mkResponse {
  status : Z;
  r_success : option bool;
  r_error : option string;
  r_data : option json;
  r_output : option string;
  r_stderr : option string;
  r_warning : option string;
  r_details : option string
}.

Definition dquote : string := String (ascii_of_nat 34) EmptyString.

(** [s || undefined] *)
Definition or_undefined (s : string) : option string :=
  if String.eqb s EmptyString then None else Some s.

(** *** The pattern [/data\/output\/([^\s]+\.json)/]

    Strings are UTF-8 byte strings; [\s] is the white space of the language:
    tab, line feed, vertical tab, form feed, carriage return, space,
    U+00A0, U+1680, U+2000 to U+200A, U+2028, U+2029, U+202F, U+205F, U+3000
    and U+FEFF. *)
Definition space_at_head (s : string) : bool :=
  match s with
  | EmptyString => false
  | String c s1 =>
      let n := nat_of_ascii c in
      if (Nat.leb 9 n && Nat.leb n 13) || Nat.eqb n 32 then true
      else
        match s1 with
        | EmptyString => false
        | String c1 s2 =>
            let n1 := nat_of_ascii c1 in
            if Nat.eqb n 194 && Nat.eqb n1 160 then true
            else
              match s2 with
              | EmptyString => false
              | String c2 _ =>
                  let n2 := nat_of_ascii c2 in
                  (Nat.eqb n 225 && Nat.eqb n1 154 && Nat.eqb n2 128)
                  || (Nat.eqb n 226 && Nat.eqb n1 128
                      && ((Nat.leb 128 n2 && Nat.leb n2 138)
                          || Nat.eqb n2 168 || Nat.eqb n2 169
                          || Nat.eqb n2 175))
                  || (Nat.eqb n 226 && Nat.eqb n1 129 && Nat.eqb n2 159)
                  || (Nat.eqb n 227 && Nat.eqb n1 128 && Nat.eqb n2 128)
                  || (Nat.eqb n 239 && Nat.eqb n1 187 && Nat.eqb n2 191)
              end
        end
  end.

(** The longest run of [[^\s]] at the head of [s]. *)
Fixpoint token (s : string) : string :=
  if space_at_head s then EmptyString
  else
    match s with
    | EmptyString => EmptyString
    | String c s' => String c (token s')
    end.

Fixpoint strip_prefix (p s : string) : option string :=
  match p, s with
  | EmptyString, _ => Some s
  | String a p', String b s' =>
      if Ascii.eqb a b then strip_prefix p' s' else None
  | String _ _, EmptyString => None
  end.

(** The longest prefix of [s] that ends in [.json]. *)
Fixpoint json_prefix (s : string) : option string :=
  match s with
  | EmptyString => None
  | String c s' =>
      match json_prefix s' with
      | Some p => Some (String c p)
      | None => if String.prefix ".json" s then Some ".json" else None
      end
  end.

(** [([^\s]+\.json)] matched greedily at the head of [s]. *)
Definition capture (s : string) : option string :=
  match token s with
  | EmptyString => None
  | String c rest =>
      match json_prefix rest with
      | Some p => Some (String c p)
      | None => None
      end
  end.

(** [stdout.match(...)]: the capture group of the leftmost match. *)
Fixpoint outputMatch (stdout : string) : option string :=
  match stdout with
  | EmptyString => None
  | String _ stdout' =>
      match strip_prefix "data/output/" stdout with
      | Some rest =>
          match capture rest with
          | Some name => Some name
          | None => outputMatch stdout'
          end
      | None => outputMatch stdout'
      end
  end.

(** [const { company, country, website, officer } = body]; destructuring
    [null] throws. *)
Definition destructure (body : json)
  : option (option json * option json * option json * option json) :=
  match body with
  | JNull => None
  | _ =>
      Some (property body "company", property body "country",
            property body "website", property body "officer")
  end.

Definition bad_request : Response :=
  {| status := 400;
     r_success := None;
     r_error := Some "企業名と国は必須です";
     r_data := None;
     r_output := None;
     r_stderr := None;
     r_warning := None;
     r_details := None |}.

(** The outer [catch]. *)
Definition on_error (error : thrown) : Response :=
  {| status := 500;
     r_success := Some false;
     r_error :=
       Some match error with
            | ErrorObj message _ => message
            | NotError _ => "分析中にエラーが発生しました"
            end;
     r_data := None;
     r_output := None;
     r_stderr := None;
     r_warning := None;
     r_details :=
       match error with
       | ErrorObj _ stderr => stderr
       | NotError _ => None
       end |}.

(** Interpolation [${v}] in a template literal: a string stands for itself,
    any other value for what the platform's [ToString] gives. *)
Definition interpolate (rt : Runtime) (v : option json) : string :=
  match v with
  | Some (JString s) => s
  | _ => ToString rt v
  end.

(** The two optional arguments appended to the command. *)
Definition with_options (rt : Runtime) (command : string)
  (website officer : option json) : string :=
  let command :=
    if truthy website
    then (command ++ " --website " ++ dquote ++ interpolate rt website
          ++ dquote)%string
    else command in
  if truthy officer
  then (command ++ " --officer " ++ dquote ++ interpolate rt officer
        ++ dquote)%string
  else command.

End Js.

(** ** src/app/api/analyze/route.ts

    The handler answers with a response; the trace lists the subprocess and
    file-system calls it made on the way.  Writes to the console (the
    filtered [stderr] lines, the caught errors) do not reach the response
    and are left out. *)

Module AppRoute.

Import Js.

Definition command_of (rt : Runtime) (projectRoot : string)
  (company country website officer : option json) : string :=
  with_options rt
    ("cd " ++ dquote ++ projectRoot ++ dquote
     ++ " && uv run python src/backend/integrated_analysis.py --company "
     ++ dquote ++ interpolate rt company ++ dquote
     ++ " --country " ++ interpolate rt country)%string
    website officer.

(** The inner [catch (fileError)]. *)
Definition on_file_error (fileError : thrown) (stdout stderr : string)
  : Response :=
  {| status := 200;
     r_success := Some false;
     r_error := Some "結果ファイルの読み込みに失敗しました";
     r_data := None;
     r_output := Some stdout;
     r_stderr := or_undefined stderr;
     r_warning := None;
     r_details :=
       Some match fileError with
            | ErrorObj message _ => message
            | NotError text => text
            end |}.

Definition found (analysisResult : json) (stdout stderr : string)
  : Response :=
  {| status := 200;
     r_success := Some true;
     r_error := None;
     r_data := Some analysisResult;
     r_output := Some stdout;
     r_stderr := or_undefined stderr;
     r_warning := None;
     r_details := None |}.

(** The final [return], reached when [stdout] names no result file. *)
Definition not_found (stdout stderr : string) : Response :=
  {| status := 200;
     r_success := Some true;
     r_error := None;
     r_data := Some JNull;
     r_output := Some stdout;
     r_stderr := or_undefined stderr;
     r_warning :=
       Some "結果ファイルが見つかりませんでした。出力を確認してください。";
     r_details := None |}.

Definition POST (rt : Runtime) (request_json : thrown + json)
  : Response * list Effect :=
  match request_json with
  | inl error => (on_error error, [])
  | inr body =>
      match destructure body with
      | None => (on_error (null_destructure rt), [])
      | Some (company, country, website, officer) =>
          if negb (truthy company) || negb (truthy country)
          then (bad_request, [])
          else
            let projectRoot := cwd rt in
            let command :=
              command_of rt projectRoot company country website officer in
            match execAsync rt command with
            | inl error => (on_error error, [Exec command])
            | inr (stdout, stderr) =>
                match outputMatch stdout with
                | Some file =>
                    let jsonPath :=
                      path_join rt [projectRoot; "data"; "output"; file] in
                    let trace := [Exec command; ReadFile jsonPath] in
                    match readFile rt jsonPath with
                    | inl fileError =>
                        (on_file_error fileError stdout stderr, trace)
                    | inr jsonContent =>
                        match JSON_parse rt jsonContent with
                        | inl fileError =>
                            (on_file_error fileError stdout stderr, trace)
                        | inr analysisResult =>
                            (found analysisResult stdout stderr, trace)
                        end
                    end
                | None => (not_found stdout stderr, [Exec command])
                end
            end
      end
  end.

End AppRoute.

(** ** frontend/app/api/analyze/route.ts *)

Module FrontendRoute.

Import Js.

Definition command_of (rt : Runtime) (projectRoot : string)
  (company country website officer : option json) : string :=
  with_options rt
    ("cd " ++ dquote ++ projectRoot ++ dquote
     ++ " && uv run python scripts/integrated_analysis.py --company "
     ++ dquote ++ interpolate rt company ++ dquote
     ++ " --country " ++ interpolate rt country)%string
    website officer.

Definition found (analysisResult : json) (stdout : string) : Response :=
  {| status := 200;
     r_success := Some true;
     r_error := None;
     r_data := Some analysisResult;
     r_output := Some stdout;
     r_stderr := None;
     r_warning := None;
     r_details := None |}.

(** The final [return]: [error] carries the subprocess's [stderr]. *)
Definition not_found (stdout stderr : string) : Response :=
  {| status := 200;
     r_success := Some true;
     r_error := Some stderr;
     r_data := Some JNull;
     r_output := Some stdout;
     r_stderr := None;
     r_warning := None;
     r_details := None |}.

Definition POST (rt : Runtime) (request_json : thrown + json)
  : Response * list Effect :=
  match request_json with
  | inl error => (on_error error, [])
  | inr body =>
      match destructure body with
      | None => (on_error (null_destructure rt), [])
      | Some (company, country, website, officer) =>
          if negb (truthy company) || negb (truthy country)
          then (bad_request, [])
          else
            let projectRoot := path_join rt [cwd rt; ".."] in
            let command :=
              command_of rt projectRoot company country website officer in
            match execAsync rt command with
            | inl error => (on_error error, [Exec command])
            | inr (stdout, stderr) =>
                match outputMatch stdout with
                | Some file =>
                    let jsonPath :=
                      path_join rt [projectRoot; "data"; "output"; file] in
                    let trace := [Exec command; ReadFile jsonPath] in
                    match readFile rt jsonPath with
                    | inl error => (on_error error, trace)
                    | inr jsonContent =>
                        match JSON_parse rt jsonContent with
                        | inl error => (on_error error, trace)
                        | inr analysisResult =>
                            (found analysisResult stdout, trace)
                        end
                    end
                | None => (not_found stdout stderr, [Exec command])
                end
            end
      end
  end.

End FrontendRoute.

(** ** NetworkGraph.tsx: what is drawn *)

Module NetworkGraphView.

Import NetworkGraph.

(** [getNodeColor] *)
Definition getNodeColor (node : Node) : string :=
  let nodeType :=
    match type node with
    | Some s => if String.eqb s EmptyString then "unknown" else s
    | None => "unknown"
    end in
  if String.eqb nodeType "company" then "#3b82f6"
  else if String.eqb nodeType "officer" then "#10b981"
  else "#8b5cf6".

(** [graphData.nodes.length === 0], the test for the card that says there
    is nothing to show. *)
Definition nothing_to_show (g : GraphData) : bool :=
  Nat.eqb (List.length (nodes g)) 0.

End NetworkGraphView.

(** ** EntityTypeChart.tsx: what a chart says *)

Module EntityTypeChartView.

Import EntityTypeChart.

(** The chart [out] tallies the discriminators [ks]: its bars are the names
    that occur in [ks], each with the number of its occurrences. *)
Definition tally_of (ks : list string) (out : list Datum) : Prop :=
  forall d, In d out <->
            In (name d) ks /\ value d = occurrences (name d) ks.

(** [relationshipTypeData.length > 0], the test for drawing the bars rather
    than the note that there are no relationships. *)
Definition has_bars (out : list Datum) : bool :=
  Nat.ltb 0 (List.length out).

(** What the component puts in the card of relationship types: nothing at
    all when there are no entities ([return null]), else the bars or the
    note that there are no relationships. *)
Inductive RelationshipCard : Type :=
| NotRendered
| Bars
| NoRelationshipsNote.

Definition relationship_card (entities : list Entity)
  (relationships : list Relationship) : RelationshipCard :=
  if Nat.eqb (List.length entities) 0 then NotRendered
  else if has_bars (relationshipTypeData relationships) then Bars
  else NoRelationshipsNote.

End EntityTypeChartView.

(** ** The analyze endpoint: requests, traces and file names *)

Module RouteView.

Import Js.

(** Tab, line feed, vertical tab, form feed, carriage return and space. *)
Definition ascii_space (c : ascii) : bool :=
  let n := nat_of_ascii c in
  (Nat.leb 9 n && Nat.leb n 13) || Nat.eqb n 32.

Fixpoint no_ascii_space (s : string) : bool :=
  match s with
  | EmptyString => true
  | String c s' => negb (ascii_space c) && no_ascii_space s'
  end.

(** A string of ASCII characters none of which is white space. *)
Fixpoint plain (s : string) : bool :=
  match s with
  | EmptyString => true
  | String c s' =>
      Nat.ltb (nat_of_ascii c) 128 && negb (ascii_space c) && plain s'
  end.

(** Nothing, or text that begins with ASCII white space. *)
Definition breaks_off (s : string) : bool :=
  match s with
  | EmptyString => true
  | String c _ => ascii_space c
  end.

(** A request that passes the check of the required fields. *)
Definition valid_request (request_json : thrown + json) : Prop :=
  exists body,
    request_json = inr body
    /\ truthy (property body "company") = true
    /\ truthy (property body "country") = true.

(** [path] is the file under [root] that the output of [command] names. *)
Definition file_named_by (rt : Runtime) (root command path : string)
  : Prop :=
  exists stdout stderr file,
    execAsync rt command = inr (stdout, stderr)
    /\ outputMatch stdout = Some file
    /\ path = path_join rt [root; "data"; "output"; file].

(** The calls a handler may make for a request: none; or, for a valid
    request only, the subprocess, followed at most by one read of the file
    its output names. *)
Definition disciplined (rt : Runtime) (root : string)
  (request_json : thrown + json) (trace : list Effect) : Prop :=
  trace = []
  \/ (valid_request request_json
      /\ ((exists command, trace = [Exec command])
          \/ (exists command path,
                trace = [Exec command; ReadFile path]
                /\ file_named_by rt root command path))).

End RouteView.

(** ** The page: [handleAnalyze]

    The two pages have the same handler.  It reads the form, posts the
    request and moves the page from one state to the next; the model
    returns the new state and the request body it sent, if any. *)

Module Page.

Import Js.

Inductive Country : Type := US | UK | JP.

Definition country_code (c : Country) : string :=
  match c with
  | US => "US"
  | UK => "UK"
  | JP => "JP"
  end.

Record Form : Type := mkForm {
  company : string;
  country : Country;
  website : string;
  officer : string
}.

Record State : Type := mkState {
  loading : bool;
  result : option json;
  error : option string;
  debugOutput : option string
}.

(** Bytes taken by the white space character at the head of [s], 0 when
    there is none. *)
Definition space_width (s : string) : nat :=
  if space_at_head s then
    match s with
    | EmptyString => 0
    | String a _ =>
        if Nat.ltb (nat_of_ascii a) 128 then 1
        else if Nat.eqb (nat_of_ascii a) 194 then 2
        else 3
    end
  else 0.

(** [!s.trim()]: [s] is white space from end to end. *)
Fixpoint blank (s : string) : bool :=
  match s with
  | EmptyString => true
  | String _ s1 =>
      match space_width s with
      | 0 => false
      | 1 => blank s1
      | 2 =>
          match s1 with
          | String _ s2 => blank s2
          | EmptyString => false
          end
      | _ =>
          match s1 with
          | String _ (String _ s3) => blank s3
          | _ => false
          end
      end
  end.

(** The object given to [JSON.stringify]; a property that is [undefined]
    is left out. *)
Definition request_body (form : Form) : json :=
  JObject
    ([("company", JString (company form));
      ("country", JString (country_code (country form)))]
     ++ (if String.eqb (website form) EmptyString then []
         else [("website", JString (website form))])
     ++ (if String.eqb (officer form) EmptyString then []
         else [("officer", JString (officer form))])).

Definition newline : string := String (ascii_of_nat 10) EmptyString.

(** [a || b] on texts. *)
Definition or_text (a : option string) (b : string) : string :=
  match a with
  | Some s => if String.eqb s EmptyString then b else s
  | None => b
  end.

(** [response.ok] *)
Definition ok (response : Response) : bool :=
  Z.leb 200 (status response) && Z.leb (status response) 299.

(** The message of the error thrown for a response that is not a success. *)
Definition failure_message (data : Response) : string :=
  let errorMsg := or_text (r_error data) "分析に失敗しました" in
  let details :=
    or_text (r_details data) (or_text (r_output data) EmptyString) in
  (errorMsg ++ newline
   ++ (if String.eqb details EmptyString then EmptyString
       else newline ++ "詳細:" ++ newline ++ details))%string.

(** The [catch] of the handler. *)
Definition caught (err : thrown) : string :=
  match err with
  | ErrorObj message _ => message
  | NotError _ => "分析中にエラーが発生しました"
  end.

Definition handleAnalyze (fetch : json -> thrown + Response) (form : Form)
  (st : State) : State * option json :=
  if blank (company form)
  then ({| loading := loading st;
           result := result st;
           error := Some "企業名を入力してください";
           debugOutput := debugOutput st |}, None)
  else
    let body := request_body form in
    match fetch body with
    | inl err =>
        ({| loading := false;
            result := None;
            error := Some (caught err);
            debugOutput := debugOutput st |}, Some body)
    | inr data =>
        let debug :=
          match r_output data with
          | Some output =>
              if String.eqb output EmptyString then debugOutput st
              else Some output
          | None => debugOutput st
          end in
        if negb (ok data)
           || negb (match r_success data with
                    | Some b => b
                    | None => false
                    end)
        then ({| loading := false;
                 result := None;
                 error := Some (failure_message data);
                 debugOutput := debug |}, Some body)
        else if truthy (r_data data)
        then ({| loading := false;
                 result := r_data data;
                 error := None;
                 debugOutput := debug |}, Some body)
        else ({| loading := false;
                 result := None;
                 error := Some "結果データが見つかりませんでした";
                 debugOutput := debug |}, Some body)
    end.

(** The page as first shown. *)
Definition initial : State :=
  {| loading := false; result := None; error := None; debugOutput := None |}.

(** The first handler behind [fetch], on a network that delivers. *)
Definition app_server (rt : Runtime) (body : json) : thrown + Response :=
  inr (fst (AppRoute.POST rt (inr body))).

(** The second handler behind [fetch]. *)
Definition frontend_server (rt : Runtime) (body : json)
  : thrown + Response :=
  inr (fst (FrontendRoute.POST rt (inr body))).

End Page.

(** ** EdgarTimeline.tsx

    A filing is read by its [form_name] and [filed_at]; both are declared
    strings and both are guarded by the code, so they are modelled as
    possibly missing. *)

Module EdgarTimeline.

Record Filing : Type := mkFiling {
  form_name : option string;
  filed_at : option string
}.

Record DateCount : Type := mkDateCount {
  date : string;
  d_count : nat
}.

Record FormCount : Type := mkFormCount {
  name : string;
  count : nat
}.

(** [filing.form_name || "Unknown"] *)
Definition or_Unknown (d : option string) : string :=
  match d with
  | Some s => if String.eqb s EmptyString then "Unknown" else s
  | None => "Unknown"
  end.

(** Body of the first [filings.forEach]: a filing without a date is
    skipped. *)
Definition count_date (dateMap : JsMap.t nat) (filing : Filing)
  : JsMap.t nat :=
  match filed_at filing with
  | Some date =>
      if String.eqb date EmptyString then dateMap
      else EntityTypeChart.bump dateMap date
  | None => dateMap
  end.

Section WithCollation.

(** [a.localeCompare(b)], the collation of the platform. *)
Variable localeCompare : string -> string -> Z.

Definition chartData (filings : list Filing) : list DateCount :=
  JsArray.sort (fun a b => localeCompare (date a) (date b))
    (map (fun p => {| date := fst p; d_count := snd p |})
       (JsMap.entries (fold_left count_date filings JsMap.empty))).

End WithCollation.

Definition formTypeData (filings : list Filing) : list FormCount :=
  JsArray.sort (fun a b => (Z.of_nat (count b) - Z.of_nat (count a))%Z)
    (map (fun p => {| name := fst p; count := snd p |})
       (JsMap.entries
          (fold_left
             (fun typeMap filing =>
                EntityTypeChart.bump typeMap (or_Unknown (form_name filing)))
             filings JsMap.empty))).

(** The dates of the filings that have one, in input order. *)
Definition dates_of (filings : list Filing) : list string :=
  flat_map
    (fun filing =>
       match filed_at filing with
       | Some date => if String.eqb date EmptyString then [] else [date]
       | None => []
       end)
    filings.

(** The form names of the filings as the chart files them. *)
Definition forms_of (filings : list Filing) : list string :=
  map (fun filing => or_Unknown (form_name filing)) filings.

(** A bar of the other charts read as a bar of this one. *)
Definition of_datum (d : EntityTypeChart.Datum) : FormCount :=
  {| name := EntityTypeChart.name d; count := EntityTypeChart.value d |}.

(** Larger count first, equal counts by first sight among [ks]. *)
Definition form_before (ks : list string) (a b : FormCount) : Prop :=
  count b < count a
  \/ (count a = count b
      /\ EntityTypeChart.first_index (name a) ks
         < EntityTypeChart.first_index (name b) ks).

End EdgarTimeline.

(** ** Sample inputs *)

Module Samples.

Definition acme_A : Entity :=
  {| e_type := Some "company"; e_name := "Acme Inc."; e_source := Some "A" |}.

Definition acme_B : Entity :=
  {| e_type := Some "company"; e_name := "acme inc"; e_source := Some "B" |}.

(** A later record with exactly the name of [acme_A]. *)
Definition acme_late : Entity :=
  {| e_type := Some "officer"; e_name := "Acme Inc."; e_source := Some "B" |}.

Definition officer_of_acme : Relationship :=
  {| r_from := "Acme Inc."; r_to := "Jane Doe"; r_type := Some "officer_of" |}.

Definition a_to_b : Relationship :=
  {| r_from := "A"; r_to := "B"; r_type := Some "x" |}.

(** Six records: one officer, two companies, a missing type, an empty
    type and an address, from the sources A (three), B (two) and none. *)
Definition mixed : list Entity :=
  [ {| e_type := Some "officer"; e_name := "Jane Doe"; e_source := Some "B" |};
    {| e_type := Some "company"; e_name := "Acme Inc.";
       e_source := Some "A" |};
    {| e_type := Some "company"; e_name := "Bolt Ltd"; e_source := Some "A" |};
    {| e_type := None; e_name := "Nemo"; e_source := None |};
    {| e_type := Some EmptyString; e_name := "Blank"; e_source := Some "B" |};
    {| e_type := Some "address"; e_name := "1 Main St";
       e_source := Some "A" |} ].

(** A platform on which the analysis runs to the end, prints a line that
    names no result file, and leaves nothing on disk. *)
Definition barren : Js.Runtime :=
  {| Js.cwd := "/srv/app";
     Js.path_join := String.concat "/";
     Js.execAsync := fun _ => inr ("No entities found for Acme", EmptyString);
     Js.readFile :=
       fun _ => inl (Js.ErrorObj "ENOENT: no such file or directory" None);
     Js.JSON_parse :=
       fun _ => inl (Js.ErrorObj "Unexpected end of JSON input" None);
     Js.ToString := fun _ => "[object Object]";
     Js.null_destructure :=
       Js.ErrorObj
         "Cannot destructure property 'company' of 'body' as it is null."
         None |}.

(** A platform on which the subprocess call fails. *)
Definition failing : Js.Runtime :=
  {| Js.cwd := "/srv/app";
     Js.path_join := String.concat "/";
     Js.execAsync :=
       fun _ => inl (Js.ErrorObj "Command failed: uv run python"
                       (Some "Traceback (most recent call last)"));
     Js.readFile :=
       fun _ => inl (Js.ErrorObj "ENOENT: no such file or directory" None);
     Js.JSON_parse :=
       fun _ => inl (Js.ErrorObj "Unexpected end of JSON input" None);
     Js.ToString := fun _ => "[object Object]";
     Js.null_destructure :=
       Js.ErrorObj
         "Cannot destructure property 'company' of 'body' as it is null."
         None |}.

(** A platform on which the analysis names a result file that cannot be
    read. *)
Definition stale : Js.Runtime :=
  {| Js.cwd := "/srv/app";
     Js.path_join := String.concat "/";
     Js.execAsync :=
       fun _ => inr ("saved to data/output/acme.json", "Built acme");
     Js.readFile :=
       fun _ => inl (Js.ErrorObj "ENOENT: no such file or directory" None);
     Js.JSON_parse :=
       fun _ => inl (Js.ErrorObj "Unexpected end of JSON input" None);
     Js.ToString := fun _ => "[object Object]";
     Js.null_destructure :=
       Js.ErrorObj
         "Cannot destructure property 'company' of 'body' as it is null."
         None |}.

(** A platform on which the analysis names a result file that holds an
    object. *)
Definition fruitful : Js.Runtime :=
  {| Js.cwd := "/srv/app";
     Js.path_join := String.concat "/";
     Js.execAsync :=
       fun _ => inr ("saved to data/output/acme.json", EmptyString);
     Js.readFile := fun _ => inr "{}";
     Js.JSON_parse := fun _ => inr (Js.JObject []);
     Js.ToString := fun _ => "[object Object]";
     Js.null_destructure :=
       Js.ErrorObj
         "Cannot destructure property 'company' of 'body' as it is null."
         None |}.

(** Four filings: two 10-K, one of them undated, an 8-K and one without a
    form name. *)
Definition filings4 : list EdgarTimeline.Filing :=
  [ {| EdgarTimeline.form_name := Some "10-K";
       EdgarTimeline.filed_at := Some "2023-02-01" |};
    {| EdgarTimeline.form_name := Some "8-K";
       EdgarTimeline.filed_at := Some "2023-02-01" |};
    {| EdgarTimeline.form_name := Some "10-K";
       EdgarTimeline.filed_at := None |};
    {| EdgarTimeline.form_name := None;
       EdgarTimeline.filed_at := Some "2022-11-15" |} ].

Definition acme_form : Page.Form :=
  {| Page.company := "Acme"; Page.country := Page.US;
     Page.website := EmptyString; Page.officer := "Jane Doe" |}.

Definition acme_request : Js.json :=
  Js.JObject [("company", Js.JString "Acme"); ("country", Js.JString "US")].

Definition no_country_request : Js.json :=
  Js.JObject [("company", Js.JString "Acme");
              ("country", Js.JString EmptyString)].

End Samples.

(** * Properties *)

(** ** The insertion-ordered map *)

Module JsMapFacts.

Import JsMap.

Section WithValue.

Context {V : Type}.

Implicit Types (m : JsMap.t V) (k : string) (v : V).

Lemma get_app m m' k :
  get (m ++ m') k =
  match get m k with
  | Some v => Some v
  | None => get m' k
  end.
Proof.
  induction m as [|[k' v'] m IH]; simpl; auto.
  destruct (String.eqb k' k); auto.
Qed.

Lemma set_absent m k v : get m k = None -> set m k v = m ++ [(k, v)].
Proof.
  induction m as [|[k' v'] m IH]; simpl; auto.
  destruct (String.eqb k' k); [discriminate|].
  intros H. now rewrite IH.
Qed.

Lemma set_present_keys m k v : get m k <> None -> keys (set m k v) = keys m.
Proof.
  induction m as [|[k' v'] m IH]; simpl; [congruence|].
  destruct (String.eqb k' k); simpl; auto.
  intros H. now rewrite IH.
Qed.

Lemma get_set m k v k' :
  get (set m k v) k' = if String.eqb k k' then Some v else get m k'.
Proof.
  induction m as [|[k0 v0] m IH]; simpl; auto.
  destruct (String.eqb k0 k) eqn:E; simpl.
  - apply String.eqb_eq in E. subst k0.
    destruct (String.eqb k k'); auto.
  - destruct (String.eqb k0 k') eqn:E'; auto.
    apply String.eqb_eq in E'. subst k0.
    rewrite String.eqb_sym, E. reflexivity.
Qed.

Lemma get_None_iff m k : get m k = None <-> ~ In k (keys m).
Proof.
  induction m as [|[k' v'] m IH]; simpl; [tauto|].
  destruct (String.eqb k' k) eqn:E.
  - apply String.eqb_eq in E. split; [discriminate | tauto].
  - apply String.eqb_neq in E. tauto.
Qed.

Lemma get_In m k v : get m k = Some v -> In (k, v) m.
Proof.
  induction m as [|[k' v'] m IH]; simpl; [discriminate|].
  destruct (String.eqb k' k) eqn:E; auto.
  apply String.eqb_eq in E. intros [= ->]. subst. auto.
Qed.

Lemma get_In_values m k v : get m k = Some v -> In v (values m).
Proof.
  intros H. apply get_In in H.
  change v with (snd (k, v)). now apply in_map.
Qed.

Lemma In_get m k v : NoDup (keys m) -> In (k, v) m -> get m k = Some v.
Proof.
  induction m as [|[k' v'] m IH]; simpl; [tauto|].
  intros Hnd [H | H].
  - injection H as -> ->. now rewrite String.eqb_refl.
  - inversion Hnd as [|? ? Hk Hm]; subst.
    destruct (String.eqb k' k) eqn:E; auto.
    apply String.eqb_eq in E. subst k'.
    exfalso. apply Hk. change k with (fst (k, v)). now apply in_map.
Qed.

Lemma keys_app m m' : keys (m ++ m') = keys m ++ keys m'.
Proof. apply map_app. Qed.

Lemma values_app m m' : values (m ++ m') = values m ++ values m'.
Proof. apply map_app. Qed.

End WithValue.

End JsMapFacts.

(** ** NetworkGraph: the node map *)

Module NetworkGraphFacts.

Import JsMap JsMapFacts NetworkGraph.

Lemma get_add_entity m e k :
  get (add_entity m e) k =
  match get m k with
  | Some v => Some v
  | None => if named k e then Some (entity_node e) else None
  end.
Proof.
  unfold add_entity, has, named.
  destruct (get m (e_name e)) eqn:H; simpl.
  - destruct (get m k) eqn:Hk; auto.
    destruct (String.eqb (e_name e) k) eqn:E; auto.
    apply String.eqb_eq in E. congruence.
  - rewrite get_set.
    destruct (String.eqb (e_name e) k) eqn:E.
    + apply String.eqb_eq in E. subst k. now rewrite H.
    + now destruct (get m k).
Qed.

Lemma get_add_entities es : forall m k,
  get (fold_left add_entity es m) k =
  match get m k with
  | Some v => Some v
  | None => option_map entity_node (find (named k) es)
  end.
Proof.
  induction es as [|e es IH]; intros m k; simpl.
  - now destruct (get m k).
  - rewrite IH, get_add_entity.
    destruct (get m k); auto.
    destruct (named k e); auto.
Qed.

Lemma get_add_endpoint m x k :
  get (add_endpoint m x) k =
  match get m k with
  | Some v => Some v
  | None => if String.eqb x k then Some (placeholder k) else None
  end.
Proof.
  unfold add_endpoint, has.
  destruct (get m x) eqn:H; simpl.
  - destruct (get m k) eqn:Hk; auto.
    destruct (String.eqb x k) eqn:E; auto.
    apply String.eqb_eq in E. congruence.
  - rewrite get_set.
    destruct (String.eqb x k) eqn:E.
    + apply String.eqb_eq in E. subst k. now rewrite H.
    + now destruct (get m k).
Qed.

Lemma get_add_link m l k :
  get (add_link m l) k =
  match get m k with
  | Some v => Some v
  | None => if touches k l then Some (placeholder k) else None
  end.
Proof.
  unfold add_link, touches.
  rewrite !get_add_endpoint.
  destruct (get m k); auto.
  destruct (String.eqb (l_source l) k); auto.
Qed.

Lemma get_add_links ls : forall m k,
  get (fold_left add_link ls m) k =
  match get m k with
  | Some v => Some v
  | None => if existsb (touches k) ls then Some (placeholder k) else None
  end.
Proof.
  induction ls as [|l ls IH]; intros m k; simpl.
  - now destruct (get m k).
  - rewrite IH, get_add_link.
    destruct (get m k); auto.
    destruct (touches k l); auto.
Qed.

(** What the finished map holds under a key: the first entity of that
    name, else a placeholder when a link touches the name, else nothing. *)
Lemma get_nodesMap_of es ls k :
  get (nodesMap_of es ls) k =
  match find (named k) es with
  | Some e => Some (entity_node e)
  | None => if existsb (touches k) ls then Some (placeholder k) else None
  end.
Proof.
  unfold nodesMap_of.
  rewrite get_add_links, get_add_entities. simpl.
  now destruct (find (named k) es).
Qed.

Lemma well_keyed_set m k v :
  well_keyed m -> get m k = None -> name v = k -> id v = k ->
  well_keyed (set m k v).
Proof.
  intros [Hnd Hall] Hget Hname Hid.
  rewrite (set_absent _ _ _ Hget).
  split.
  - rewrite keys_app. apply NoDup_app; auto.
    + simpl. constructor; [simpl; tauto | constructor].
    + intros a Ha [<- | []]. apply get_None_iff in Hget. tauto.
  - apply Forall_app. split; auto.
Qed.

Lemma well_keyed_add_entity m e : well_keyed m -> well_keyed (add_entity m e).
Proof.
  intros H. unfold add_entity, has.
  destruct (get m (e_name e)) eqn:Hget; simpl; auto.
  now apply well_keyed_set.
Qed.

Lemma well_keyed_add_endpoint m x :
  well_keyed m -> well_keyed (add_endpoint m x).
Proof.
  intros H. unfold add_endpoint, has.
  destruct (get m x) eqn:Hget; simpl; auto.
  now apply well_keyed_set.
Qed.

Lemma well_keyed_nodesMap_of es ls : well_keyed (nodesMap_of es ls).
Proof.
  unfold nodesMap_of.
  assert (H0 : well_keyed (@empty Node))
    by (split; [constructor | constructor]).
  assert (H1 : forall es m, well_keyed m ->
                 well_keyed (fold_left add_entity es m)).
  { clear. induction es as [|e es IH]; intros m H; simpl; auto.
    apply IH. now apply well_keyed_add_entity. }
  assert (H2 : forall ls m, well_keyed m ->
                 well_keyed (fold_left add_link ls m)).
  { clear. induction ls as [|l ls IH]; intros m H; simpl; auto.
    apply IH. unfold add_link.
    now apply well_keyed_add_endpoint, well_keyed_add_endpoint. }
  apply H2, H1, H0.
Qed.

Lemma well_keyed_names m : well_keyed m -> map name (values m) = keys m.
Proof.
  intros [_ Hall]. unfold values, keys. rewrite map_map.
  induction Hall as [|p m [Hn _] _ IH]; simpl; congruence.
Qed.

Lemma filter_has_name m k :
  well_keyed m ->
  filter (has_name k) (values m) =
  match get m k with
  | Some v => [v]
  | None => []
  end.
Proof.
  induction m as [|[k' n] m IH]; intros [Hnd Hall]; simpl; auto.
  unfold keys in Hnd. simpl in Hnd.
  apply NoDup_cons_iff in Hnd. destruct Hnd as [Hk Hm].
  pose proof (Forall_inv Hall) as [Hn _]. simpl in Hn.
  apply Forall_inv_tail in Hall.
  assert (Hwk : well_keyed m) by (split; assumption).
  specialize (IH Hwk).
  unfold has_name at 1. rewrite Hn.
  destruct (String.eqb k' k) eqn:E.
  - apply String.eqb_eq in E.
    rewrite IH. rewrite <- E.
    apply get_None_iff in Hk. now rewrite Hk.
  - exact IH.
Qed.

Lemma add_entities_fresh es : forall acc,
  NoDup (map e_name es) ->
  (forall e, In e es -> get acc (e_name e) = None) ->
  fold_left add_entity es acc =
  acc ++ map (fun e => (e_name e, entity_node e)) es.
Proof.
  induction es as [|a es IH]; intros acc Hnd Hfresh; simpl.
  - now rewrite app_nil_r.
  - inversion Hnd as [|? ? Ha Hes]; subst.
    assert (Hadd : add_entity acc a = acc ++ [(e_name a, entity_node a)]).
    { unfold add_entity, has. rewrite (Hfresh a) by (simpl; auto). simpl.
      apply set_absent. apply Hfresh. simpl; auto. }
    rewrite Hadd, IH; auto.
    + now rewrite <- app_assoc.
    + intros e He. rewrite get_app, (Hfresh e) by (simpl; auto). simpl.
      destruct (String.eqb (e_name a) (e_name e)) eqn:E; auto.
      apply String.eqb_eq in E. exfalso. apply Ha. rewrite E.
      now apply in_map.
Qed.

Lemma add_links_covered ls : forall m,
  (forall l, In l ls ->
     get m (l_source l) <> None /\ get m (l_target l) <> None) ->
  fold_left add_link ls m = m.
Proof.
  induction ls as [|l ls IH]; intros m H; simpl; auto.
  assert (Hl : add_link m l = m).
  { destruct (H l) as [Hs Ht]; [simpl; auto|].
    unfold add_link, add_endpoint, has.
    destruct (get m (l_source l)); [simpl | congruence].
    destruct (get m (l_target l)); [reflexivity | congruence]. }
  rewrite Hl. apply IH. intros l' Hl'. apply H. simpl; auto.
Qed.

Lemma touches_source l ls : In l ls -> existsb (touches (l_source l)) ls = true.
Proof.
  intros H. apply existsb_exists. exists l. split; auto.
  unfold touches. now rewrite String.eqb_refl.
Qed.

Lemma touches_target l ls : In l ls -> existsb (touches (l_target l)) ls = true.
Proof.
  intros H. apply existsb_exists. exists l. split; auto.
  unfold touches. rewrite String.eqb_refl. apply orb_true_r.
Qed.

Lemma endpoint_present es ls k :
  existsb (touches k) ls = true -> get (nodesMap_of es ls) k <> None.
Proof.
  intros H. rewrite get_nodesMap_of, H.
  destruct (find (named k) es); discriminate.
Qed.

Lemma rel_link_rel ls : map rel_link (map link_rel ls) = ls.
Proof.
  rewrite map_map. rewrite <- (map_id ls) at 2.
  apply map_ext. now intros [].
Qed.

Lemma node_entity_node e : node_entity (entity_node e) = e.
Proof. now destruct e. Qed.

(** Assembling again from an assembled graph rebuilds every node from its
    entity fields, in the same order. *)
Lemma nodes_regraph es rs :
  nodes (regraph (graphData es rs)) = map renode (nodes (graphData es rs)).
Proof.
  unfold regraph, graphData. cbn [nodes links].
  rewrite rel_link_rel.
  set (ls := map rel_link rs).
  set (M := nodesMap_of es ls).
  assert (HM : well_keyed M) by apply well_keyed_nodesMap_of.
  set (ents := map node_entity (values M)).
  assert (Hnames : map e_name ents = keys M).
  { unfold ents. rewrite map_map. cbn [node_entity e_name].
    now apply well_keyed_names. }
  unfold nodesMap_of at 1.
  rewrite (add_entities_fresh ents empty).
  - unfold empty. simpl app.
    rewrite add_links_covered.
    + unfold ents, renode, values. now rewrite !map_map.
    + intros l Hl.
      assert (Hin : forall k, existsb (touches k) ls = true ->
                get (map (fun e => (e_name e, entity_node e)) ents) k
                <> None).
      { intros k Hk Hnone. apply get_None_iff in Hnone. apply Hnone.
        replace (keys (map (fun e => (e_name e, entity_node e)) ents))
          with (keys M)
          by (unfold keys at 2; rewrite map_map; symmetry; exact Hnames).
        unfold keys.
        destruct (get M k) eqn:Hg.
        - apply get_In in Hg. change k with (fst (k, n)).
          now apply in_map.
        - now apply (endpoint_present es ls k) in Hk. }
      split; apply Hin; [now apply touches_source | now apply touches_target].
  - rewrite Hnames. apply HM.
  - reflexivity.
Qed.

End NetworkGraphFacts.

(** ** NetworkGraph: the assembled graph *)

Module NetworkGraphSpec.

Import JsMap JsMapFacts NetworkGraph NetworkGraphFacts Samples.

Lemma nodes_by_name es rs k :
  filter (has_name k) (nodes (graphData es rs)) =
  match find (named k) es with
  | Some e => [entity_node e]
  | None =>
      if existsb (touches k) (map rel_link rs) then [placeholder k] else []
  end.
Proof.
  unfold graphData. cbn [nodes].
  rewrite filter_has_name by apply well_keyed_nodesMap_of.
  rewrite get_nodesMap_of.
  destruct (find (named k) es); auto.
  now destruct (existsb (touches k) (map rel_link rs)).
Qed.

Lemma node_origin es rs n :
  In n (nodes (graphData es rs)) ->
  (exists e, In e es /\ n = entity_node e) \/ n = placeholder (name n).
Proof.
  intros H.
  assert (Hf : In n (filter (has_name (name n)) (nodes (graphData es rs)))).
  { apply filter_In. split; auto. unfold has_name. apply String.eqb_refl. }
  rewrite nodes_by_name in Hf.
  destruct (find (named (name n)) es) as [e|] eqn:Hfind.
  - destruct Hf as [<- | []]. left. exists e. split; auto.
    now apply find_some in Hfind.
  - destruct (existsb (touches (name n)) (map rel_link rs)).
    + destruct Hf as [Hf | []]. now right.
    + destruct Hf.
Qed.

Lemma rel_link_injective r r' : rel_link r = rel_link r' -> r = r'.
Proof. destruct r, r'. unfold rel_link. simpl. now intros [= -> -> ->]. Qed.

(** C1, as stated, fails: the two spellings of the scenario stay two nodes,
    each with the one source of its own record. *)
Lemma differently_spelled_names_stay_apart :
  nodes (graphData [acme_A; acme_B] []) =
  [ {| id := "Acme Inc."; name := "Acme Inc."; type := Some "company";
       source := Some "A"; group := 1 |};
    {| id := "acme inc"; name := "acme inc"; type := Some "company";
       source := Some "B"; group := 1 |} ]
  /\ ~ (exists n, nodes (graphData [acme_A; acme_B] []) = [n]).
Proof.
  split; [reflexivity|].
  intros [n H]. vm_compute in H. discriminate H.
Qed.

(** C1, amended: input entities whose names are the same string share
    exactly one node of the final graph, the node built from the first
    entity of that name; it carries that entity's source alone. *)
Theorem same_name_single_node es rs a b :
  In a es -> In b es -> e_name a = e_name b ->
  exists first,
    find (named (e_name a)) es = Some first
    /\ filter (has_name (e_name a)) (nodes (graphData es rs))
       = [entity_node first]
    /\ filter (has_name (e_name b)) (nodes (graphData es rs))
       = [entity_node first].
Proof.
  intros Ha _ Hab. rewrite <- Hab.
  destruct (find (named (e_name a)) es) as [first|] eqn:Hfind.
  - exists first. rewrite nodes_by_name, Hfind. auto.
  - apply (find_none _ _ Hfind) in Ha.
    unfold named in Ha. now rewrite String.eqb_refl in Ha.
Qed.

Lemma same_name_single_node_witness :
  exists first,
    find (named "Acme Inc.") [acme_A; acme_B; acme_late] = Some first
    /\ filter (has_name "Acme Inc.")
         (nodes (graphData [acme_A; acme_B; acme_late] [officer_of_acme]))
       = [entity_node first]
    /\ filter (has_name "Acme Inc.")
         (nodes (graphData [acme_A; acme_B; acme_late] [officer_of_acme]))
       = [entity_node first].
Proof.
  apply (same_name_single_node [acme_A; acme_B; acme_late] [officer_of_acme]
           acme_A acme_late).
  - simpl. auto.
  - simpl. auto.
  - reflexivity.
Defined.

(** C2, as stated, fails: a relationship submitted twice is two links. *)
Lemma duplicate_relationship_kept :
  links (graphData [] [a_to_b; a_to_b]) =
  [ {| l_source := "A"; l_target := "B"; l_type := Some "x" |};
    {| l_source := "A"; l_target := "B"; l_type := Some "x" |} ]
  /\ ~ NoDup (links (graphData [] [a_to_b; a_to_b])).
Proof.
  split; [reflexivity|].
  intros H. inversion H as [|? ? Hnotin _]; subst.
  apply Hnotin. simpl. auto.
Qed.

(** C2, amended: the links are the input relationships one for one, in
    input order and with their multiplicity; the link list is free of
    repeated (from, to, type) exactly when the input list is. *)
Theorem links_mirror_relationships es rs :
  links (graphData es rs) = map rel_link rs
  /\ List.length (links (graphData es rs)) = List.length rs
  /\ (NoDup (links (graphData es rs)) <-> NoDup rs).
Proof.
  unfold graphData. cbn [links].
  split; [reflexivity|]. split; [apply length_map|].
  split.
  - apply NoDup_map_inv.
  - intros H. induction H as [|r rs Hr Hrs IH]; simpl; constructor; auto.
    intros Hin. apply in_map_iff in Hin. destruct Hin as [r' [Heq Hin]].
    apply rel_link_injective in Heq. now subst.
Qed.

(** C3: every link of the final graph has both endpoints among the nodes,
    and an endpoint that no entity is named after is there as the node of
    that name with type and source "unknown". *)
Theorem edge_closure es rs l :
  In l (links (graphData es rs)) ->
  (exists n, In n (nodes (graphData es rs)) /\ id n = l_source l
             /\ name n = l_source l)
  /\ (exists n, In n (nodes (graphData es rs)) /\ id n = l_target l
                /\ name n = l_target l)
  /\ (forall x, x = l_source l \/ x = l_target l ->
       (forall e, In e es -> e_name e <> x) ->
       In {| id := x; name := x; type := Some "unknown";
             source := Some "unknown"; group := 0 |}
          (nodes (graphData es rs))).
Proof.
  intros Hl. unfold graphData in Hl. cbn [links] in Hl.
  assert (Hend : forall x, x = l_source l \/ x = l_target l ->
            existsb (touches x) (map rel_link rs) = true).
  { intros x [-> | ->]; [now apply touches_source | now apply touches_target]. }
  assert (Hnode : forall x, x = l_source l \/ x = l_target l ->
            exists n, In n (nodes (graphData es rs)) /\ id n = x
                      /\ name n = x).
  { intros x Hx. pose proof (nodes_by_name es rs x) as Hf.
    rewrite (Hend x Hx) in Hf.
    destruct (find (named x) es) as [e|] eqn:Hfind.
    - exists (entity_node e).
      assert (Hin : In (entity_node e)
                      (filter (has_name x) (nodes (graphData es rs))))
        by (rewrite Hf; simpl; auto).
      apply filter_In in Hin. destruct Hin as [Hin Hname].
      unfold has_name in Hname. apply String.eqb_eq in Hname.
      repeat split; auto.
    - exists (placeholder x).
      assert (Hin : In (placeholder x)
                      (filter (has_name x) (nodes (graphData es rs))))
        by (rewrite Hf; simpl; auto).
      apply filter_In in Hin. destruct Hin as [Hin _].
      repeat split; auto. }
  split; [apply Hnode; auto|]. split; [apply Hnode; auto|].
  intros x Hx Hnone.
  pose proof (nodes_by_name es rs x) as Hf.
  rewrite (Hend x Hx) in Hf.
  destruct (find (named x) es) as [e|] eqn:Hfind.
  - apply find_some in Hfind. destruct Hfind as [Hin Hname].
    unfold named in Hname. apply String.eqb_eq in Hname.
    now apply Hnone in Hin.
  - assert (Hin : In (placeholder x)
                    (filter (has_name x) (nodes (graphData es rs))))
      by (rewrite Hf; simpl; auto).
    apply filter_In in Hin. apply Hin.
Qed.

Lemma edge_closure_witness :
  (exists n, In n (nodes (graphData [acme_A] [officer_of_acme]))
             /\ id n = "Acme Inc." /\ name n = "Acme Inc.")
  /\ (exists n, In n (nodes (graphData [acme_A] [officer_of_acme]))
                /\ id n = "Jane Doe" /\ name n = "Jane Doe")
  /\ In {| id := "Jane Doe"; name := "Jane Doe"; type := Some "unknown";
           source := Some "unknown"; group := 0 |}
        (nodes (graphData [acme_A] [officer_of_acme])).
Proof.
  destruct (edge_closure [acme_A] [officer_of_acme] (rel_link officer_of_acme))
    as [Hs [Ht Hp]].
  - simpl. auto.
  - split; [exact Hs|]. split; [exact Ht|].
    apply Hp.
    + right. reflexivity.
    + intros e [<- | []]. discriminate.
Defined.

(** C6: whatever entities share a name, the node of that name has the name,
    type and source of the first of them in input order; no later entity
    changes it. *)
Theorem first_occurrence_wins es rs k first n :
  find (named k) es = Some first ->
  In n (nodes (graphData es rs)) -> name n = k ->
  name n = e_name first /\ type n = e_type first
  /\ source n = e_source first.
Proof.
  intros Hfind Hin Hname.
  assert (Hf : In n (filter (has_name k) (nodes (graphData es rs)))).
  { apply filter_In. split; auto. unfold has_name. now apply String.eqb_eq. }
  rewrite nodes_by_name, Hfind in Hf.
  destruct Hf as [<- | []]. auto.
Qed.

Lemma first_occurrence_wins_witness :
  name (entity_node acme_A) = "Acme Inc."
  /\ type (entity_node acme_A) = Some "company"
  /\ source (entity_node acme_A) = Some "A".
Proof.
  apply (first_occurrence_wins [acme_A; acme_B; acme_late] [officer_of_acme]
           "Acme Inc." acme_A (entity_node acme_A)).
  - reflexivity.
  - simpl. auto.
  - reflexivity.
Defined.

(** C7, as stated, fails: a synthesized node has group 0, and read back as
    an entity of type "unknown" it is given group 3. *)
Lemma reassembly_changes_placeholder_group :
  nodes (graphData [] [a_to_b]) =
  [ {| id := "A"; name := "A"; type := Some "unknown";
       source := Some "unknown"; group := 0 |};
    {| id := "B"; name := "B"; type := Some "unknown";
       source := Some "unknown"; group := 0 |} ]
  /\ nodes (regraph (graphData [] [a_to_b])) =
     [ {| id := "A"; name := "A"; type := Some "unknown";
          source := Some "unknown"; group := 3 |};
       {| id := "B"; name := "B"; type := Some "unknown";
          source := Some "unknown"; group := 3 |} ]
  /\ regraph (graphData [] [a_to_b]) <> graphData [] [a_to_b].
Proof.
  split; [reflexivity|]. split; [reflexivity|].
  intros H. apply (f_equal (fun g => map group (nodes g))) in H.
  vm_compute in H. discriminate H.
Qed.

Lemma group_of_entity e :
  group_of e <> 0%Z
  /\ (if Z.eqb (group_of e) 0 then 3 else group_of e)%Z = group_of e.
Proof.
  unfold group_of.
  destruct (type_is (e_type e) "company");
    [|destruct (type_is (e_type e) "officer")]; split; easy.
Qed.

(** C7, amended: assembling again from an assembled graph gives the same
    links and, node for node in the same order, the same id, name, type and
    source; the group is worked out again from the type, so a node built
    from an entity keeps its group and a synthesized node, which is a node
    of group 0 and a node whose name no entity bears, goes from group 0 to
    group 3. *)
Theorem reassembly_keeps_entities_and_links es rs :
  links (regraph (graphData es rs)) = links (graphData es rs)
  /\ Forall2 reassembled (nodes (regraph (graphData es rs)))
       (nodes (graphData es rs))
  /\ Forall (fun n => group n = 0%Z
                      <-> forall e, In e es -> e_name e <> name n)
       (nodes (graphData es rs)).
Proof.
  split; [|split].
  - unfold regraph, graphData. cbn [links]. apply rel_link_rel.
  - rewrite nodes_regraph.
    assert (H : forall n, In n (nodes (graphData es rs)) ->
              reassembled (renode n) n).
    { intros n Hn. apply node_origin in Hn.
      destruct Hn as [[e [_ ->]] | Hn].
      - unfold renode. rewrite node_entity_node.
        unfold reassembled. cbn [group entity_node].
        destruct (group_of_entity e) as [_ ->]. repeat split.
      - rewrite Hn. unfold reassembled. cbn. repeat split. }
    induction (nodes (graphData es rs)) as [|n l IH]; simpl; constructor.
    + apply H. simpl; auto.
    + apply IH. intros n' Hn'. apply H. simpl; auto.
  - apply Forall_forall. intros n Hn.
    assert (Hf : In n (filter (has_name (name n))
                         (nodes (graphData es rs)))).
    { apply filter_In. split; auto. unfold has_name.
      apply String.eqb_refl. }
    rewrite nodes_by_name in Hf.
    destruct (find (named (name n)) es) as [e|] eqn:Hfind.
    + destruct Hf as [Hn' | []].
      apply find_some in Hfind. destruct Hfind as [He Hname].
      unfold named in Hname. apply String.eqb_eq in Hname.
      split.
      * intros Hg. rewrite <- Hn' in Hg. cbn [group entity_node] in Hg.
        now destruct (group_of_entity e).
      * intros Hnone. now apply Hnone in He.
    + split.
      * intros _ e He Hname.
        apply (find_none _ _ Hfind) in He. unfold named in He.
        apply String.eqb_neq in He. contradiction.
      * intros _.
        destruct (existsb (touches (name n)) (map rel_link rs));
          [|destruct Hf].
        destruct Hf as [Hn' | []]. now rewrite <- Hn'.
Qed.

End NetworkGraphSpec.

(** ** The stable sort *)

Module JsArrayFacts.

Import JsArray.

Section WithElement.

Context {A : Type}.

Variable compareFn : A -> A -> Z.

Lemma insert_perm x l : Permutation (insert compareFn x l) (x :: l).
Proof.
  induction l as [|y l IH]; simpl; auto.
  destruct (0 <? compareFn x y)%Z; auto.
  transitivity (y :: x :: l); [now constructor | apply perm_swap].
Qed.

Lemma sort_perm l : Permutation (sort compareFn l) l.
Proof.
  induction l as [|x l IH]; simpl; auto.
  transitivity (x :: sort compareFn l); [apply insert_perm | now constructor].
Qed.

End WithElement.

Section Order.

Context {A : Type}.

Variable R : A -> A -> Prop.

Lemma StronglySorted_snoc l x :
  StronglySorted R l -> Forall (fun a => R a x) l ->
  StronglySorted R (l ++ [x]).
Proof.
  induction 1 as [|a l Hl IH Ha]; intros Hx; simpl.
  - repeat constructor.
  - constructor.
    + apply IH. now apply Forall_inv_tail in Hx.
    + apply Forall_app. split; auto.
      constructor; [now apply Forall_inv in Hx | constructor].
Qed.

Lemma StronglySorted_irrefl_NoDup l :
  (forall a, ~ R a a) -> StronglySorted R l -> NoDup l.
Proof.
  intros Hirr H. induction H as [|a l Hl IH Ha]; constructor; auto.
  intros Hin. rewrite Forall_forall in Ha. now apply (Hirr a), Ha.
Qed.

(** Two sorted arrangements of the same elements under an asymmetric order
    are the same list. *)
Lemma StronglySorted_perm_unique :
  (forall a b, R a b -> R b a -> False) ->
  forall l l', StronglySorted R l -> StronglySorted R l' ->
               Permutation l l' -> l = l'.
Proof.
  intros Hasym. induction l as [|x l IH]; intros l' Hs Hs' Hp.
  - apply Permutation_nil in Hp. now subst.
  - destruct l' as [|y l'].
    + apply Permutation_sym, Permutation_nil in Hp. discriminate.
    + assert (Hxy : x = y).
      { pose proof (Permutation_in x Hp (or_introl eq_refl)) as Hx.
        pose proof (Permutation_in y (Permutation_sym Hp) (or_introl eq_refl))
          as Hy.
        destruct Hx as [Hx | Hx]; [congruence|].
        destruct Hy as [Hy | Hy]; [congruence|].
        apply StronglySorted_inv in Hs. destruct Hs as [_ Hs].
        apply StronglySorted_inv in Hs'. destruct Hs' as [_ Hs'].
        rewrite Forall_forall in Hs, Hs'.
        exfalso. apply (Hasym x y); auto. }
      subst y. f_equal.
      apply StronglySorted_inv in Hs. apply StronglySorted_inv in Hs'.
      apply IH; try tauto.
      now apply Permutation_cons_inv in Hp.
Qed.

End Order.

Section TwoOrders.

Context {A : Type}.

Variables R R' : A -> A -> Prop.

Lemma StronglySorted_in_ext l :
  (forall a b, In a l -> In b l -> R a b -> R' a b) ->
  StronglySorted R l -> StronglySorted R' l.
Proof.
  intros Hext H. induction H as [|a l Hl IH Ha]; constructor.
  - apply IH. intros x y Hx Hy. apply Hext; simpl; auto.
  - rewrite Forall_forall in *. intros y Hy.
    apply Hext; simpl; auto.
Qed.

End TwoOrders.

Lemma StronglySorted_map_inv {A B : Type} (f : A -> B) (R : B -> B -> Prop) l :
  StronglySorted R (map f l) -> StronglySorted (fun a b => R (f a) (f b)) l.
Proof.
  induction l as [|a l IH]; simpl; intros H; constructor.
  - apply IH. now apply StronglySorted_inv in H.
  - apply StronglySorted_inv in H. destruct H as [_ H].
    rewrite Forall_forall in *. intros b Hb. apply H. now apply in_map.
Qed.

End JsArrayFacts.

(** ** EntityTypeChart: counting and ranking *)

Module EntityTypeChartFacts.

Import JsMap JsMapFacts JsArray JsArrayFacts EntityTypeChart.
Import EntityTypeChartView.

Lemma or_zero_some n : or_zero (Some n) = n.
Proof. now destruct n. Qed.

Lemma or_unknown_nonempty d : or_unknown d <> EmptyString.
Proof.
  destruct d as [s|]; simpl; [|discriminate].
  destruct (String.eqb s EmptyString) eqn:E; [discriminate|].
  now apply String.eqb_neq in E.
Qed.

Lemma or_unknown_bucket d :
  String.eqb (or_unknown d) "unknown" = in_unknown_bucket d.
Proof.
  destruct d as [s|]; simpl; auto.
  now destruct (String.eqb s EmptyString).
Qed.

Lemma fold_bump_map {A : Type} (f : A -> string) xs : forall m,
  fold_left (fun typeMap x => bump typeMap (f x)) xs m
  = fold_left bump (map f xs) m.
Proof. induction xs as [|x xs IH]; simpl; auto. Qed.

Lemma weigh_perm f l l' : Permutation l l' -> weigh f l = weigh f l'.
Proof. unfold weigh. induction 1; simpl; lia. Qed.

(** One more sighting of [a] adds [c] to a weight that grows by [c] with
    each unit of [a]'s count. *)
Lemma weigh_bump w c m a :
  (forall n, w (mkDatum a (n + 1)) = w (mkDatum a n) + c) ->
  w (mkDatum a 0) = 0 ->
  weigh w (map to_datum (bump m a)) = weigh w (map to_datum m) + c.
Proof.
  intros Hs H0. unfold bump, weigh.
  induction m as [|[k v] m IH].
  - pose proof (Hs 0) as H1. cbn in *. unfold to_datum. cbn.
    rewrite H1, H0. lia.
  - cbn [get set]. destruct (String.eqb k a) eqn:E.
    + apply String.eqb_eq in E. subst k.
      rewrite or_zero_some. unfold to_datum. cbn. rewrite Hs. lia.
    + cbn [map fold_right]. rewrite IH. lia.
Qed.

Lemma total_counted ks : forall m,
  total (map to_datum (fold_left bump ks m))
  = total (map to_datum m) + List.length ks.
Proof.
  induction ks as [|a ks IH]; intros m; simpl; [lia|].
  rewrite IH. unfold total.
  rewrite (weigh_bump value 1); [lia | intros n; reflexivity | reflexivity].
Qed.

Lemma occurrences_cons k a ks :
  occurrences k (a :: ks)
  = if String.eqb a k then S (occurrences k ks) else occurrences k ks.
Proof. unfold occurrences. simpl. now destruct (String.eqb a k). Qed.

Lemma count_under_counted k ks : forall m,
  count_under k (map to_datum (fold_left bump ks m))
  = count_under k (map to_datum m) + occurrences k ks.
Proof.
  induction ks as [|a ks IH]; intros m.
  - simpl. unfold occurrences. simpl. lia.
  - simpl fold_left. rewrite IH, occurrences_cons. unfold count_under.
    rewrite (weigh_bump _ (if String.eqb a k then 1 else 0)).
    + destruct (String.eqb a k); lia.
    + intros n. simpl. destruct (String.eqb a k); lia.
    + simpl. now destruct (String.eqb a k).
Qed.

Lemma occurrences_In k ks : In k ks <-> occurrences k ks <> 0.
Proof.
  induction ks as [|a ks IH]; [simpl; unfold occurrences; simpl; tauto|].
  rewrite occurrences_cons. simpl.
  destruct (String.eqb a k) eqn:E.
  - apply String.eqb_eq in E. split; [lia | auto].
  - apply String.eqb_neq in E. tauto.
Qed.

Lemma first_index_app_in k p q :
  In k p -> first_index k (p ++ q) = first_index k p.
Proof.
  induction p as [|x p IH]; simpl; [tauto|].
  destruct (String.eqb x k) eqn:E; auto.
  apply String.eqb_neq in E. intros [H | H]; [congruence | auto].
Qed.

Lemma first_index_lt k p : In k p -> first_index k p < List.length p.
Proof.
  induction p as [|x p IH]; simpl; [tauto|].
  destruct (String.eqb x k) eqn:E; [lia|].
  apply String.eqb_neq in E. intros [H | H]; [congruence|].
  apply IH in H. lia.
Qed.

Lemma first_index_fresh k p :
  ~ In k p -> first_index k (p ++ [k]) = List.length p.
Proof.
  induction p as [|x p IH]; simpl.
  - now rewrite String.eqb_refl.
  - intros H. destruct (String.eqb x k) eqn:E.
    + apply String.eqb_eq in E. tauto.
    + rewrite IH; tauto.
Qed.

(** The map lists each discriminator once, in the order of first sight. *)
Lemma counted_keys ks :
  StronglySorted (fun a b => first_index a ks < first_index b ks)
    (keys (fold_left bump ks empty))
  /\ (forall k, In k (keys (fold_left bump ks empty)) <-> In k ks).
Proof.
  induction ks as [|x ks [Hs Hin]] using rev_ind.
  - simpl. split; [constructor | tauto].
  - rewrite fold_left_app. simpl fold_left.
    set (M := fold_left bump ks empty) in *.
    assert (Hext : StronglySorted
                     (fun a b => first_index a (ks ++ [x])
                                 < first_index b (ks ++ [x])) (keys M)).
    { revert Hs. apply StronglySorted_in_ext. intros a b Ha Hb.
      rewrite !first_index_app_in by now apply Hin. auto. }
    unfold bump. destruct (get M x) eqn:Hg.
    + assert (Hx : In x (keys M)).
      { apply get_In in Hg. change x with (fst (x, n)). now apply in_map. }
      rewrite set_present_keys by congruence.
      split; auto.
      intros k. rewrite in_app_iff, Hin. simpl.
      split; [tauto|]. intros [H | [<- | []]]; auto. now apply Hin.
    + rewrite (set_absent _ _ _ Hg), keys_app. simpl keys.
      assert (Hx : ~ In x ks).
      { rewrite <- Hin. now apply get_None_iff. }
      split.
      * apply StronglySorted_snoc; auto.
        apply Forall_forall. intros a Ha. apply Hin in Ha.
        rewrite first_index_app_in, first_index_fresh by auto.
        now apply first_index_lt.
      * intros k. rewrite !in_app_iff, Hin. reflexivity.
Qed.

Lemma counted_keys_NoDup ks : NoDup (keys (fold_left bump ks empty)).
Proof.
  destruct (counted_keys ks) as [Hs _].
  revert Hs. apply StronglySorted_irrefl_NoDup. intros a. lia.
Qed.

Lemma ranked_before_asym ks a b :
  ranked_before ks a b -> ranked_before ks b a -> False.
Proof. unfold ranked_before. lia. Qed.

Lemma insert_ranked ks x l :
  StronglySorted (ranked_before ks) l ->
  Forall (fun y => first_index (name x) ks < first_index (name y) ks) l ->
  StronglySorted (ranked_before ks) (insert by_value_desc x l).
Proof.
  induction 1 as [|y l Hl IH Hy]; intros Hx; simpl.
  - repeat constructor.
  - pose proof (Forall_inv Hx) as Hxy. apply Forall_inv_tail in Hx.
    specialize (IH Hx).
    rewrite Forall_forall in Hy, Hx. cbv beta in Hxy.
    destruct (0 <? by_value_desc x y)%Z eqn:E; unfold by_value_desc in E.
    + apply Z.ltb_lt in E. constructor; auto.
      apply Forall_forall. intros z Hz.
      apply (Permutation_in _ (insert_perm by_value_desc x l)) in Hz.
      destruct Hz as [<- | Hz]; [left; lia | auto].
    + apply Z.ltb_ge in E.
      constructor; [constructor; [exact Hl | now apply Forall_forall] |].
      apply Forall_forall. intros z [<- | Hz].
      * unfold ranked_before. lia.
      * specialize (Hy z Hz). specialize (Hx z Hz).
        unfold ranked_before in *. lia.
Qed.

Lemma sort_ranked ks l :
  StronglySorted (fun a b => first_index (name a) ks < first_index (name b) ks)
    l ->
  StronglySorted (ranked_before ks) (sort by_value_desc l).
Proof.
  induction 1 as [|x l Hl IH Hx]; simpl; [constructor|].
  apply insert_ranked; auto.
  rewrite Forall_forall in *. intros y Hy. apply Hx.
  now apply (Permutation_in _ (sort_perm by_value_desc l)).
Qed.

Lemma names_of_entries (m : JsMap.t nat) :
  map name (map to_datum (entries m)) = keys m.
Proof. unfold entries, keys. rewrite map_map. reflexivity. Qed.

Lemma ranked_perm m : Permutation (ranked m) (map to_datum (entries m)).
Proof. apply sort_perm. Qed.

(** The chart of the discriminators [ks] is their ranking. *)
Lemma ranked_ranking ks : ranking_of ks (ranked (fold_left bump ks empty)).
Proof.
  assert (Hs : StronglySorted (ranked_before ks)
                 (ranked (fold_left bump ks empty))).
  { unfold ranked. apply sort_ranked.
    apply StronglySorted_map_inv with (f := name)
      (R := fun a b => first_index a ks < first_index b ks).
    rewrite names_of_entries. apply counted_keys. }
  split; auto.
  intros l Hp Hl.
  apply (StronglySorted_perm_unique _ (ranked_before_asym ks)); auto.
Qed.

Lemma ranked_total ks :
  total (ranked (fold_left bump ks empty)) = List.length ks.
Proof.
  unfold total. rewrite (weigh_perm _ _ _ (ranked_perm _)).
  apply (total_counted ks empty).
Qed.

Lemma ranked_count_under k ks :
  count_under k (ranked (fold_left bump ks empty)) = occurrences k ks.
Proof.
  unfold count_under. rewrite (weigh_perm _ _ _ (ranked_perm _)).
  apply (count_under_counted k ks empty).
Qed.

Lemma ranked_unknown_coalesced ds :
  unknown_coalesced ds (ranked (fold_left bump (map or_unknown ds) empty)).
Proof.
  set (ks := map or_unknown ds).
  assert (Hnames : Permutation (map name (ranked (fold_left bump ks empty)))
                     (keys (fold_left bump ks empty))).
  { rewrite <- names_of_entries. apply Permutation_map, ranked_perm. }
  assert (Hne : forall k, In k ks -> k <> EmptyString).
  { intros k Hk. apply in_map_iff in Hk. destruct Hk as [d [<- _]].
    apply or_unknown_nonempty. }
  repeat split.
  - intros d Hd. apply Hne. apply (counted_keys ks).
    apply (Permutation_in _ Hnames). now apply in_map.
  - apply (Permutation_NoDup (Permutation_sym Hnames)).
    apply counted_keys_NoDup.
  - rewrite ranked_count_under. unfold occurrences, ks.
    clear. induction ds as [|d ds IH]; simpl; auto.
    rewrite or_unknown_bucket.
    destruct (in_unknown_bucket d); simpl; now rewrite IH.
  - rewrite ranked_count_under.
    destruct (occurrences EmptyString ks) eqn:E; auto.
    exfalso. apply (Hne EmptyString); auto.
    apply occurrences_In. lia.
Qed.

Lemma get_counted ks : forall (m : JsMap.t nat) k,
  get (fold_left bump ks m) k
  = if Nat.eqb (occurrences k ks) 0 then get m k
    else Some (or_zero (get m k) + occurrences k ks).
Proof.
  induction ks as [|a ks IH]; intros m k; [reflexivity|].
  simpl fold_left. rewrite IH, occurrences_cons.
  unfold bump at 1 2. rewrite get_set.
  destruct (String.eqb a k) eqn:E.
  - apply String.eqb_eq in E. subst a. rewrite or_zero_some.
    destruct (Nat.eqb (occurrences k ks) 0) eqn:E0; simpl.
    + apply Nat.eqb_eq in E0. rewrite E0. f_equal; lia.
    + f_equal; lia.
  - reflexivity.
Qed.

Lemma ranked_tally ks : tally_of ks (ranked (fold_left bump ks empty)).
Proof.
  intros d.
  assert (Hin : In d (ranked (fold_left bump ks empty))
                <-> get (fold_left bump ks empty) (name d) = Some (value d)).
  { split.
    - intros H. apply (Permutation_in _ (ranked_perm _)) in H.
      apply in_map_iff in H. destruct H as [[k v] [<- Hp]].
      apply In_get; [apply counted_keys_NoDup | exact Hp].
    - intros H. apply get_In in H.
      apply (Permutation_in _ (Permutation_sym (ranked_perm _))).
      apply in_map_iff. exists (name d, value d). split; auto.
      now destruct d. }
  rewrite Hin, get_counted, occurrences_In. simpl.
  destruct (Nat.eqb (occurrences (name d) ks) 0) eqn:E.
  - apply Nat.eqb_eq in E. split; [discriminate | tauto].
  - apply Nat.eqb_neq in E. split.
    + intros [= <-]. auto.
    + intros [_ ->]. reflexivity.
Qed.

End EntityTypeChartFacts.

(** ** EntityTypeChart: the three groupings *)

Module EntityTypeChartSpec.

Import JsMap EntityTypeChart EntityTypeChartView EntityTypeChartFacts Samples.

Lemma entityTypeData_counted es :
  entityTypeData es
  = ranked (fold_left bump (map or_unknown (map e_type es)) empty).
Proof. unfold entityTypeData. now rewrite fold_bump_map, map_map. Qed.

Lemma relationshipTypeData_counted rs :
  relationshipTypeData rs
  = ranked (fold_left bump (map or_unknown (map r_type rs)) empty).
Proof. unfold relationshipTypeData. now rewrite fold_bump_map, map_map. Qed.

Lemma sourceData_counted es :
  sourceData es
  = ranked (fold_left bump (map or_unknown (map e_source es)) empty).
Proof. unfold sourceData. now rewrite fold_bump_map, map_map. Qed.

Example entityTypeData_mixed :
  entityTypeData mixed =
  [ {| name := "company"; value := 2 |};
    {| name := "unknown"; value := 2 |};
    {| name := "officer"; value := 1 |};
    {| name := "address"; value := 1 |} ].
Proof. reflexivity. Qed.

Example sourceData_mixed :
  sourceData mixed =
  [ {| name := "A"; value := 3 |};
    {| name := "B"; value := 2 |};
    {| name := "unknown"; value := 1 |} ].
Proof. reflexivity. Qed.

(** C4: each of the three groupings has one bar for every discriminator
    that occurs in its input, with the number of its records as value, and
    comes out ordered by descending count, equal counts in the order in
    which their discriminators are first seen in the input; the input
    leaves no other order of the same bars. *)
Theorem groupings_ranked es rs :
  (tally_of (map or_unknown (map e_type es)) (entityTypeData es)
   /\ ranking_of (map or_unknown (map e_type es)) (entityTypeData es))
  /\ (tally_of (map or_unknown (map r_type rs)) (relationshipTypeData rs)
      /\ ranking_of (map or_unknown (map r_type rs))
           (relationshipTypeData rs))
  /\ (tally_of (map or_unknown (map e_source es)) (sourceData es)
      /\ ranking_of (map or_unknown (map e_source es)) (sourceData es)).
Proof.
  rewrite entityTypeData_counted, relationshipTypeData_counted,
    sourceData_counted.
  split; [|split]; (split; [apply ranked_tally | apply ranked_ranking]).
Qed.

(** C5: the counts by entity type and by source each sum to the number of
    entities, the counts by relationship type sum to the number of
    relationships, and the summary totals are the two list lengths. *)
Theorem counts_consistent es rs :
  total (entityTypeData es) = List.length es
  /\ total (sourceData es) = List.length es
  /\ total (relationshipTypeData rs) = List.length rs
  /\ Summary.total_entities (Summary.summary es rs) = List.length es
  /\ Summary.total_relationships (Summary.summary es rs) = List.length rs.
Proof.
  rewrite entityTypeData_counted, relationshipTypeData_counted,
    sourceData_counted, !ranked_total, !length_map.
  repeat split.
Qed.

(** C8: in each of the three groupings every emitted discriminator is a
    non-empty name, each name has one bar, and the bar "unknown" counts
    every record whose discriminator is missing or empty (with those that
    say "unknown"); nothing is counted under the empty name. *)
Theorem unknown_bucket es rs :
  unknown_coalesced (map e_type es) (entityTypeData es)
  /\ unknown_coalesced (map r_type rs) (relationshipTypeData rs)
  /\ unknown_coalesced (map e_source es) (sourceData es).
Proof.
  rewrite entityTypeData_counted, relationshipTypeData_counted,
    sourceData_counted.
  repeat split; apply ranked_unknown_coalesced.
Qed.

End EntityTypeChartSpec.

(** ** The analyze endpoint *)

Module RouteSpec.

Import Js Samples.

Example outputMatch_found :
  outputMatch "saved to data/output/acme_20240101.json (done)"
  = Some "acme_20240101.json".
Proof. reflexivity. Qed.

Example outputMatch_longest :
  outputMatch "data/output/a.json.json x.json" = Some "a.json.json".
Proof. reflexivity. Qed.

Example outputMatch_needs_a_name :
  outputMatch "data/output/.json" = None.
Proof. reflexivity. Qed.

Example outputMatch_none :
  outputMatch "No entities found for Acme" = None.
Proof. reflexivity. Qed.

(** Every way the handler can go once the subprocess has been started ends
    in a response whose status is not 400. *)
Ltac each_outcome rt :=
  destruct (execAsync rt _) as [? | [? ?]]; [discriminate|];
  destruct (outputMatch _); [|discriminate];
  destruct (readFile rt _); [discriminate|];
  destruct (JSON_parse rt _); discriminate.

(** A failed subprocess call is answered by the outer [catch]. *)
Lemma subprocess_failure_is_500 rt body company country website officer e :
  destructure body = Some (company, country, website, officer) ->
  truthy company = true -> truthy country = true ->
  execAsync rt (AppRoute.command_of rt (cwd rt) company country website
                  officer) = inl e ->
  fst (AppRoute.POST rt (inr body)) = on_error e.
Proof.
  intros Hd Hc Hn He. unfold AppRoute.POST.
  rewrite Hd, Hc, Hn. cbn [negb orb]. cbv zeta. now rewrite He.
Qed.

(** C9, as stated, fails: a run that ends without naming a result file is
    answered as a success with no data. *)
Lemma no_result_answered_as_success :
  AppRoute.POST barren (inr acme_request) =
  ( {| status := 200;
       r_success := Some true;
       r_error := None;
       r_data := Some JNull;
       r_output := Some "No entities found for Acme";
       r_stderr := None;
       r_warning :=
         Some "結果ファイルが見つかりませんでした。出力を確認してください。";
       r_details := None |},
    [ Exec (AppRoute.command_of barren "/srv/app" (Some (JString "Acme"))
              (Some (JString "US")) None None) ] ).
Proof. reflexivity. Qed.

(** C9, amended: when the analysis subprocess returns and its output names
    no result file, the analyze endpoint answers HTTP 200 with success true,
    no data, the captured output and a warning message; it answers a
    failure, HTTP 500 with success false and the error's message, when the
    subprocess call itself fails. *)
Theorem missing_result_is_warning rt body company country website officer :
  destructure body = Some (company, country, website, officer) ->
  truthy company = true -> truthy country = true ->
  let command :=
    AppRoute.command_of rt (cwd rt) company country website officer in
  let response := fst (AppRoute.POST rt (inr body)) in
  (forall stdout stderr,
     execAsync rt command = inr (stdout, stderr) ->
     outputMatch stdout = None ->
     status response = 200%Z
     /\ r_success response = Some true
     /\ r_data response = Some JNull
     /\ r_error response = None
     /\ r_output response = Some stdout
     /\ r_warning response
        = Some "結果ファイルが見つかりませんでした。出力を確認してください。")
  /\ (forall message stderr,
        execAsync rt command = inl (ErrorObj message stderr) ->
        status response = 500%Z
        /\ r_success response = Some false
        /\ r_error response = Some message
        /\ r_details response = stderr).
Proof.
  intros Hd Hc Hn command response.
  subst response. unfold AppRoute.POST.
  rewrite Hd, Hc, Hn. cbn [negb orb]. cbv zeta. fold command.
  split.
  - intros stdout stderr He Hm. rewrite He, Hm. cbn. repeat split.
  - intros message stderr He. rewrite He. cbn. repeat split.
Qed.

Lemma missing_result_is_warning_witness :
  (status (fst (AppRoute.POST barren (inr acme_request))) = 200%Z
   /\ r_success (fst (AppRoute.POST barren (inr acme_request))) = Some true
   /\ r_data (fst (AppRoute.POST barren (inr acme_request))) = Some JNull)
  /\ (status (fst (AppRoute.POST failing (inr acme_request))) = 500%Z
      /\ r_success (fst (AppRoute.POST failing (inr acme_request)))
         = Some false
      /\ r_error (fst (AppRoute.POST failing (inr acme_request)))
         = Some "Command failed: uv run python").
Proof.
  split.
  - destruct (missing_result_is_warning barren acme_request
                (Some (JString "Acme")) (Some (JString "US")) None None
                eq_refl eq_refl eq_refl) as [H _].
    destruct (H "No entities found for Acme" EmptyString eq_refl eq_refl)
      as [H1 [H2 [H3 _]]].
    repeat split; assumption.
  - destruct (missing_result_is_warning failing acme_request
                (Some (JString "Acme")) (Some (JString "US")) None None
                eq_refl eq_refl eq_refl) as [_ H].
    destruct (H "Command failed: uv run python"
                (Some "Traceback (most recent call last)") eq_refl)
      as [H1 [H2 [H3 _]]].
    repeat split; assumption.
Defined.

(** C10 at the body [null]: it has no company and no country, like every
    other body without these fields, yet destructuring it throws before the
    check of the required fields is reached, and both handlers answer 500
    with the message of the [TypeError] instead of the 400 of that check. *)
Lemma null_body_answered_500 :
  AppRoute.POST barren (inr JNull) =
  ( {| status := 500;
       r_success := Some false;
       r_error :=
         Some "Cannot destructure property 'company' of 'body' as it is null.";
       r_data := None;
       r_output := None;
       r_stderr := None;
       r_warning := None;
       r_details := None |}, [] )
  /\ status (fst (FrontendRoute.POST barren (inr JNull))) = 500%Z
  /\ truthy (property JNull "company") = false
  /\ truthy (property JNull "country") = false.
Proof. repeat split. Qed.

(** The check of the required fields on every body other than [null]: when
    company or country is missing or falsy, both handlers answer status 400
    with the message "企業名と国は必須です" and start no subprocess; when both
    fields are truthy neither handler answers 400. *)
Theorem required_fields rt body :
  (body <> JNull ->
   truthy (property body "company") = false
   \/ truthy (property body "country") = false ->
   AppRoute.POST rt (inr body) = (bad_request, [])
   /\ FrontendRoute.POST rt (inr body) = (bad_request, [])
   /\ status bad_request = 400%Z
   /\ r_error bad_request = Some "企業名と国は必須です")
  /\ (truthy (property body "company") = true ->
      truthy (property body "country") = true ->
      status (fst (AppRoute.POST rt (inr body))) <> 400%Z
      /\ status (fst (FrontendRoute.POST rt (inr body))) <> 400%Z).
Proof.
  split.
  - intros Hnull Hfalsy.
    assert (Hd : destructure body
                 = Some (property body "company", property body "country",
                         property body "website", property body "officer"))
      by (destruct body; try reflexivity; congruence).
    assert (Hguard : negb (truthy (property body "company"))
                     || negb (truthy (property body "country")) = true)
      by (destruct Hfalsy as [-> | ->]; [reflexivity | apply orb_true_r]).
    unfold AppRoute.POST, FrontendRoute.POST.
    rewrite Hd, Hguard. repeat split.
  - intros Hc Hn.
    assert (Hd : destructure body
                 = Some (property body "company", property body "country",
                         property body "website", property body "officer"))
      by (destruct body; try reflexivity; discriminate).
    unfold AppRoute.POST, FrontendRoute.POST.
    rewrite Hd, Hc, Hn. cbn [negb orb]. cbv zeta.
    split; each_outcome rt.
Qed.

Lemma required_fields_witness :
  (AppRoute.POST barren (inr no_country_request) = (bad_request, [])
   /\ FrontendRoute.POST barren (inr no_country_request) = (bad_request, [])
   /\ status bad_request = 400%Z
   /\ r_error bad_request = Some "企業名と国は必須です")
  /\ (status (fst (AppRoute.POST barren (inr acme_request))) <> 400%Z
      /\ status (fst (FrontendRoute.POST barren (inr acme_request)))
         <> 400%Z).
Proof.
  split.
  - apply (required_fields barren no_country_request).
    + discriminate.
    + right. reflexivity.
  - apply (required_fields barren acme_request); reflexivity.
Defined.

End RouteSpec.

(** ** NetworkGraph: shape of the node list and what is drawn *)

Module NetworkGraphMore.

Import JsMap JsMapFacts NetworkGraph NetworkGraphFacts NetworkGraphView Samples.

Lemma well_keyed_ids m : well_keyed m -> map id (values m) = keys m.
Proof.
  intros [_ Hall]. unfold values, keys. rewrite map_map.
  induction Hall as [|p m [_ Hi] _ IH]; simpl; congruence.
Qed.

Lemma node_id_is_name es rs n :
  In n (nodes (graphData es rs)) -> id n = name n.
Proof.
  unfold graphData. cbn [nodes]. intros Hn.
  destruct (well_keyed_nodesMap_of es (map rel_link rs)) as [_ Hall].
  unfold values in Hn. apply in_map_iff in Hn.
  destruct Hn as [p [<- Hp]].
  rewrite Forall_forall in Hall. destruct (Hall p Hp). congruence.
Qed.

(** X1: The ids of the nodes are pairwise distinct, and every node has its name
    as id. *)
Theorem node_ids_distinct es rs :
  NoDup (map id (nodes (graphData es rs)))
  /\ Forall (fun n => id n = name n) (nodes (graphData es rs)).
Proof.
  split.
  - unfold graphData. cbn [nodes].
    pose proof (well_keyed_nodesMap_of es (map rel_link rs)) as Hwk.
    rewrite well_keyed_ids by assumption. apply Hwk.
  - apply Forall_forall. intros n. apply node_id_is_name.
Qed.

Lemma add_links_append ls : forall m,
  exists extra,
    fold_left add_link ls m = m ++ extra
    /\ Forall (fun p => snd p = placeholder (fst p) /\ get m (fst p) = None)
         extra.
Proof.
  induction ls as [|l ls IH]; intros m; simpl.
  - exists []. split; [now rewrite app_nil_r | constructor].
  - assert (Hend : forall m x, exists e,
              add_endpoint m x = m ++ e
              /\ Forall (fun p => snd p = placeholder (fst p)
                                  /\ get m (fst p) = None) e).
    { clear. intros m x. unfold add_endpoint, has.
      destruct (get m x) eqn:Hg; simpl.
      - exists []. split; [now rewrite app_nil_r | constructor].
      - exists [(x, placeholder x)]. split; [now apply set_absent|].
        constructor; [split; auto | constructor]. }
    destruct (Hend m (l_source l)) as [e1 [H1 F1]].
    destruct (Hend (add_endpoint m (l_source l)) (l_target l))
      as [e2 [H2 F2]].
    destruct (IH (add_link m l)) as [e3 [H3 F3]].
    exists (e1 ++ e2 ++ e3).
    rewrite H3. unfold add_link in *.
    rewrite H2, H1, <- !app_assoc. split; [reflexivity|].
    assert (Hweak : forall (m' e : JsMap.t Node) k,
              get (m' ++ e) k = None -> get m' k = None).
    { clear. intros m' e k H. rewrite get_app in H.
      now destruct (get m' k). }
    rewrite H1 in F2. rewrite H2, H1 in F3.
    rewrite Forall_forall in *.
    intros p Hp. apply in_app_iff in Hp. destruct Hp as [Hp | Hp]; auto.
    apply in_app_iff in Hp. destruct Hp as [Hp | Hp].
    + destruct (F2 p Hp) as [Ha Hb]. split; auto. eapply Hweak; eauto.
    + destruct (F3 p Hp) as [Ha Hb]. split; auto.
      eapply Hweak, Hweak; eauto.
Qed.

(** X3: The relationships leave the nodes of the entities as they are and where
    they are: the node list of a graph is the node list of its entities
    alone, all of them built from entities, followed by synthesized nodes
    under names that no entity has. *)
Theorem entity_nodes_first es rs :
  exists extra,
    nodes (graphData es rs) = nodes (graphData es []) ++ extra
    /\ Forall (fun n => exists e, In e es /\ n = entity_node e)
         (nodes (graphData es []))
    /\ Forall (fun n => n = placeholder (name n)
                        /\ forall e, In e es -> e_name e <> name n) extra.
Proof.
  unfold graphData, nodesMap_of. cbn [nodes map fold_left].
  set (M0 := fold_left add_entity es empty).
  destruct (add_links_append (map rel_link rs) M0) as [extra [Heq Hall]].
  exists (values extra). rewrite Heq, values_app.
  split; [reflexivity|]. split.
  - apply Forall_forall. intros n Hn.
    assert (Hg : In n (nodes (graphData es []))) by exact Hn.
    unfold values in Hn. apply in_map_iff in Hn.
    destruct Hn as [[k n'] [Hn' Hp]]. simpl in Hn'. subst n'.
    assert (Hwk : well_keyed M0)
      by apply (well_keyed_nodesMap_of es []).
    apply (In_get _ _ _ (proj1 Hwk)) in Hp.
    unfold M0 in Hp. rewrite get_add_entities in Hp. simpl in Hp.
    destruct (find (named k) es) as [e|] eqn:Hfind; [|discriminate].
    injection Hp as <-. exists e. split; auto.
    now apply find_some in Hfind.
  - apply Forall_forall. intros n Hn.
    unfold values in Hn. apply in_map_iff in Hn.
    destruct Hn as [[k n'] [Hn' Hp]]. simpl in Hn'. subst n'.
    rewrite Forall_forall in Hall. destruct (Hall _ Hp) as [Hph Hnone].
    simpl in Hph, Hnone. subst n. simpl. split; auto.
    intros e He Hname.
    unfold M0 in Hnone. rewrite get_add_entities in Hnone. simpl in Hnone.
    destruct (find (named k) es) as [e'|] eqn:Hfind; [discriminate|].
    apply (find_none _ _ Hfind) in He. unfold named in He.
    apply String.eqb_neq in He. contradiction.
Qed.

Lemma add_entities_length es : forall m,
  List.length (fold_left add_entity es m) <= List.length m + List.length es.
Proof.
  induction es as [|e es IH]; intros m; simpl; [lia|].
  specialize (IH (add_entity m e)).
  assert (List.length (add_entity m e) <= S (List.length m)).
  { unfold add_entity, has. destruct (get m (e_name e)) eqn:Hg; simpl; [lia|].
    rewrite (set_absent _ _ _ Hg), length_app. simpl. lia. }
  lia.
Qed.

Lemma add_links_length ls : forall m,
  List.length (fold_left add_link ls m)
  <= List.length m + 2 * List.length ls.
Proof.
  induction ls as [|l ls IH]; intros m; simpl; [lia|].
  specialize (IH (add_link m l)).
  assert (Hend : forall m x, List.length (add_endpoint m x)
                             <= S (List.length m)).
  { clear. intros m x. unfold add_endpoint, has.
    destruct (get m x) eqn:Hg; simpl; [lia|].
    rewrite (set_absent _ _ _ Hg), length_app. simpl. lia. }
  unfold add_link in *.
  pose proof (Hend m (l_source l)).
  pose proof (Hend (add_endpoint m (l_source l)) (l_target l)).
  lia.
Qed.

(** X4: A graph has at most one node per entity and two per relationship. *)
Theorem node_count_bound es rs :
  List.length (nodes (graphData es rs))
  <= List.length es + 2 * List.length rs.
Proof.
  unfold graphData, nodesMap_of, values. cbn [nodes].
  rewrite length_map.
  pose proof (add_links_length (map rel_link rs)
                (fold_left add_entity es empty)) as H1.
  pose proof (add_entities_length es empty) as H2.
  rewrite length_map in H1. simpl in H2. lia.
Qed.

(** X5: The card that says there is nothing to show appears exactly when there
    are no entities and no relationships. *)
Theorem nothing_to_show_iff es rs :
  nothing_to_show (graphData es rs) = true <-> es = [] /\ rs = [].
Proof.
  unfold nothing_to_show. rewrite Nat.eqb_eq. split.
  - intros Hlen. apply length_zero_iff_nil in Hlen.
    assert (Hno : forall k, get (nodesMap_of es (map rel_link rs)) k = None).
    { intros k. destruct (get _ k) as [n|] eqn:Hg; auto.
      apply get_In_values in Hg. unfold graphData in Hlen.
      cbn [nodes] in Hlen. rewrite Hlen in Hg. destruct Hg. }
    split.
    + destruct es as [|e es]; auto.
      specialize (Hno (e_name e)). rewrite get_nodesMap_of in Hno.
      simpl in Hno. unfold named in Hno.
      rewrite String.eqb_refl in Hno. discriminate.
    + destruct rs as [|r rs]; auto.
      apply (endpoint_present es (map rel_link (r :: rs))
               (l_source (rel_link r))) in Hno; [destruct Hno|].
      apply touches_source. simpl. auto.
  - intros [-> ->]. reflexivity.
Qed.

(** Closes the three equivalences between a colour and a group once both
    are known. *)
Ltac settle_colour :=
  repeat split; intros H; try discriminate H; auto;
  try (destruct H as [H | H]; discriminate H).

(** X7: Colour and group go together on every node of a graph: blue is group
    1, green is group 2, and purple is group 3 or the group 0 of a
    synthesized node. *)
Theorem colour_follows_group es rs n :
  In n (nodes (graphData es rs)) ->
  (getNodeColor n = "#3b82f6" <-> group n = 1%Z)
  /\ (getNodeColor n = "#10b981" <-> group n = 2%Z)
  /\ (getNodeColor n = "#8b5cf6" <-> group n = 3%Z \/ group n = 0%Z).
Proof.
  intros Hn. apply NetworkGraphSpec.node_origin in Hn.
  destruct Hn as [[e [_ ->]] | ->].
  - unfold getNodeColor, entity_node, group_of, type_is. cbn [type group].
    destruct (e_type e) as [s|]; cbn; [|settle_colour].
    destruct (String.eqb s EmptyString) eqn:E0.
    + apply String.eqb_eq in E0. subst s. cbn. settle_colour.
    + destruct (String.eqb s "company") eqn:E1;
        [|destruct (String.eqb s "officer") eqn:E2]; settle_colour.
  - cbn. settle_colour.
Qed.

Lemma colour_follows_group_witness :
  (getNodeColor (placeholder "Jane Doe") = "#3b82f6"
   <-> group (placeholder "Jane Doe") = 1%Z)
  /\ (getNodeColor (placeholder "Jane Doe") = "#10b981"
      <-> group (placeholder "Jane Doe") = 2%Z)
  /\ (getNodeColor (placeholder "Jane Doe") = "#8b5cf6"
      <-> group (placeholder "Jane Doe") = 3%Z
          \/ group (placeholder "Jane Doe") = 0%Z).
Proof.
  apply (colour_follows_group [acme_A] [officer_of_acme]).
  simpl. auto.
Defined.

(** X2: The names of the nodes are exactly the names in the input: a name has
    a node when, and only when, an entity bears it or a relationship has it
    as an endpoint. *)
Theorem node_names es rs k :
  In k (map name (nodes (graphData es rs)))
  <-> (exists e, In e es /\ e_name e = k)
      \/ (exists r, In r rs /\ (r_from r = k \/ r_to r = k)).
Proof.
  assert (Hf : In k (map name (nodes (graphData es rs)))
               <-> filter (has_name k) (nodes (graphData es rs)) <> []).
  { rewrite in_map_iff. split.
    - intros [n [Hn Hin]] Hnil.
      assert (H : In n (filter (has_name k) (nodes (graphData es rs)))).
      { apply filter_In. split; auto. unfold has_name.
        now apply String.eqb_eq. }
      rewrite Hnil in H. destruct H.
    - intros Hne.
      destruct (filter (has_name k) (nodes (graphData es rs)))
        as [|n l] eqn:E; [congruence|].
      assert (H : In n (filter (has_name k) (nodes (graphData es rs))))
        by (rewrite E; simpl; auto).
      apply filter_In in H. destruct H as [Hin Hn].
      unfold has_name in Hn. apply String.eqb_eq in Hn. eauto. }
  rewrite Hf, NetworkGraphSpec.nodes_by_name. split.
  - destruct (find (named k) es) as [e|] eqn:Hfind.
    + intros _. left. apply find_some in Hfind. destruct Hfind as [Hin Hn].
      unfold named in Hn. apply String.eqb_eq in Hn. eauto.
    + destruct (existsb (touches k) (map rel_link rs)) eqn:Hx;
        [|congruence].
      intros _. right. apply existsb_exists in Hx.
      destruct Hx as [l [Hl Ht]]. apply in_map_iff in Hl.
      destruct Hl as [r [<- Hr]]. exists r. split; auto.
      unfold touches in Ht. cbn in Ht. apply orb_true_iff in Ht.
      destruct Ht as [Ht | Ht]; apply String.eqb_eq in Ht; auto.
  - intros [[e [Hin Hn]] | [r [Hin Hr]]].
    + destruct (find (named k) es) as [e'|] eqn:Hfind; [discriminate|].
      apply (find_none _ _ Hfind) in Hin. unfold named in Hin.
      apply String.eqb_neq in Hin. contradiction.
    + destruct (find (named k) es); [discriminate|].
      assert (Hx : existsb (touches k) (map rel_link rs) = true).
      { apply existsb_exists. exists (rel_link r). split.
        - now apply in_map.
        - unfold touches. cbn. apply orb_true_iff.
          destruct Hr as [<- | <-]; [left | right]; apply String.eqb_refl. }
      rewrite Hx. discriminate.
Qed.

(** X6: Assembling a second time from an assembled graph reaches a fixed
    point: a third assembly gives the very graph of the second, nodes with
    their groups and links alike. *)
Theorem reassembly_settles es rs :
  regraph (regraph (graphData es rs)) = regraph (graphData es rs).
Proof.
  assert (Hl : links (regraph (graphData es rs)) = links (graphData es rs))
    by (unfold regraph, graphData; cbn [links]; apply rel_link_rel).
  assert (Hn : nodes (regraph (regraph (graphData es rs)))
               = nodes (regraph (graphData es rs))).
  { unfold regraph at 2. rewrite nodes_regraph. fold (regraph (graphData es rs)).
    rewrite nodes_regraph, map_map.
    apply map_ext. intros n. unfold renode. now rewrite node_entity_node. }
  assert (Hl2 : links (regraph (regraph (graphData es rs)))
                = links (regraph (graphData es rs))).
  { unfold regraph at 1. unfold graphData at 1. cbn [links].
    apply rel_link_rel. }
  destruct (regraph (regraph (graphData es rs))) as [n2 l2].
  destruct (regraph (graphData es rs)) as [n1 l1].
  cbn [nodes links] in *. congruence.
Qed.

End NetworkGraphMore.

(** ** EntityTypeChart: what the bars count *)

Module EntityTypeChartMore.

Import JsMap JsMapFacts JsArray JsArrayFacts.
Import EntityTypeChart EntityTypeChartFacts EntityTypeChartView Samples.

(** X9: Each of the three charts has a bar for every discriminator that occurs
    in its input and for no other name, and the bar shows how many records
    have that discriminator. *)
Theorem groupings_tally es rs :
  tally_of (map or_unknown (map e_type es)) (entityTypeData es)
  /\ tally_of (map or_unknown (map r_type rs)) (relationshipTypeData rs)
  /\ tally_of (map or_unknown (map e_source es)) (sourceData es).
Proof.
  rewrite EntityTypeChartSpec.entityTypeData_counted,
    EntityTypeChartSpec.relationshipTypeData_counted,
    EntityTypeChartSpec.sourceData_counted.
  split; [|split]; apply ranked_tally.
Qed.

Lemma ranked_NoDup ks : NoDup (ranked (fold_left bump ks empty)).
Proof.
  apply (NoDup_map_inv name).
  assert (Hnames : Permutation (map name (ranked (fold_left bump ks empty)))
                     (keys (fold_left bump ks empty))).
  { rewrite <- names_of_entries. apply Permutation_map, ranked_perm. }
  apply (Permutation_NoDup (Permutation_sym Hnames)).
  apply counted_keys_NoDup.
Qed.

Lemma ranked_size ks :
  (ranked (fold_left bump ks empty) = [] <-> ks = [])
  /\ List.length (ranked (fold_left bump ks empty)) <= List.length ks
  /\ Forall (fun d => 1 <= value d) (ranked (fold_left bump ks empty)).
Proof.
  pose proof (ranked_tally ks) as Ht.
  split; [|split].
  - split.
    + intros Hnil. destruct ks as [|k ks]; auto.
      destruct (Ht {| name := k; value := occurrences k (k :: ks) |})
        as [_ Hin].
      rewrite Hnil in Hin. destruct Hin. simpl. auto.
    + intros ->. reflexivity.
  - rewrite <- (length_map name).
    apply NoDup_incl_length.
    + assert (Hnames : Permutation
                         (map name (ranked (fold_left bump ks empty)))
                         (keys (fold_left bump ks empty))).
      { rewrite <- names_of_entries. apply Permutation_map, ranked_perm. }
      apply (Permutation_NoDup (Permutation_sym Hnames)).
      apply counted_keys_NoDup.
    + intros k Hk. apply in_map_iff in Hk. destruct Hk as [d [<- Hd]].
      now apply Ht in Hd.
  - apply Forall_forall. intros d Hd. apply Ht in Hd.
    destruct Hd as [Hin ->]. apply occurrences_In in Hin. lia.
Qed.

(** X10: A chart is empty only for an empty input, never has more bars than
    the input has records, and never shows a bar of count 0.  With no
    entities the component renders nothing; with entities, the card of
    relationship types shows the note that there are no relationships
    exactly when there are none, and the bars otherwise. *)
Theorem groupings_size es rs :
  (entityTypeData es = [] <-> es = [])
  /\ (sourceData es = [] <-> es = [])
  /\ (relationshipTypeData rs = [] <-> rs = [])
  /\ (relationship_card es rs = NotRendered <-> es = [])
  /\ (relationship_card es rs = NoRelationshipsNote
      <-> es <> [] /\ rs = [])
  /\ (relationship_card es rs = Bars <-> es <> [] /\ rs <> [])
  /\ List.length (entityTypeData es) <= List.length es
  /\ List.length (sourceData es) <= List.length es
  /\ List.length (relationshipTypeData rs) <= List.length rs
  /\ Forall (fun d => 1 <= value d)
       (entityTypeData es ++ sourceData es ++ relationshipTypeData rs).
Proof.
  unfold relationship_card.
  rewrite EntityTypeChartSpec.entityTypeData_counted,
    EntityTypeChartSpec.relationshipTypeData_counted,
    EntityTypeChartSpec.sourceData_counted.
  destruct (ranked_size (map or_unknown (map e_type es))) as [A1 [A2 A3]].
  destruct (ranked_size (map or_unknown (map e_source es))) as [B1 [B2 B3]].
  destruct (ranked_size (map or_unknown (map r_type rs))) as [C1 [C2 C3]].
  rewrite !length_map in A2, B2, C2.
  assert (Hnil : forall (A B : Type) (f : A -> B) l, map f l = [] <-> l = []).
  { intros A B f l. destruct l; simpl; split; congruence. }
  rewrite !Hnil in A1, B1, C1.
  set (byType := ranked (fold_left bump (map or_unknown (map e_type es))
                           empty)) in *.
  set (bySource := ranked (fold_left bump (map or_unknown (map e_source es))
                             empty)) in *.
  set (byRel := ranked (fold_left bump (map or_unknown (map r_type rs))
                          empty)) in *.
  assert (Hbars : forall out, has_bars out = false <-> out = []).
  { intros [|d out]; cbn; split; intros H; try reflexivity; discriminate H. }
  assert (Hcard :
    ((if Nat.eqb (List.length es) 0 then NotRendered
      else if has_bars byRel then Bars else NoRelationshipsNote)
     = NotRendered <-> es = [])
    /\ ((if Nat.eqb (List.length es) 0 then NotRendered
         else if has_bars byRel then Bars else NoRelationshipsNote)
        = NoRelationshipsNote <-> es <> [] /\ rs = [])
    /\ ((if Nat.eqb (List.length es) 0 then NotRendered
         else if has_bars byRel then Bars else NoRelationshipsNote)
        = Bars <-> es <> [] /\ rs <> [])).
  { destruct es as [|e es'].
    - cbn. repeat split; try discriminate; try tauto;
        intros [H _]; now elim H.
    - cbn [List.length Nat.eqb].
      destruct (has_bars byRel) eqn:Hb.
      + assert (Hrs : rs <> []).
        { intros Hrs. apply C1, Hbars in Hrs. congruence. }
        repeat split; try discriminate; try tauto.
      + apply Hbars, C1 in Hb.
        repeat split; try discriminate; try tauto. }
  rewrite !Forall_app. tauto.
Qed.

Lemma occurrences_perm k ks ks' :
  Permutation ks ks' -> occurrences k ks = occurrences k ks'.
Proof.
  unfold occurrences. induction 1; simpl; auto.
  - destruct (String.eqb x k); simpl; auto.
  - destruct (String.eqb x k), (String.eqb y k); reflexivity.
  - congruence.
Qed.

Lemma ranked_perm_input ks ks' :
  Permutation ks ks' ->
  Permutation (ranked (fold_left bump ks empty))
    (ranked (fold_left bump ks' empty)).
Proof.
  intros Hp. apply NoDup_Permutation; try apply ranked_NoDup.
  intros d. rewrite (ranked_tally ks d), (ranked_tally ks' d).
  rewrite (occurrences_perm _ _ _ Hp).
  split; intros [Hin Hv]; split; auto.
  - now apply (Permutation_in _ Hp).
  - now apply (Permutation_in _ (Permutation_sym Hp)).
Qed.

(** X11: Reordering the records changes at most the order of the bars: the
    charts of two arrangements of the same records have the same bars with
    the same counts. *)
Theorem groupings_order_insensitive es es' rs rs' :
  Permutation es es' -> Permutation rs rs' ->
  Permutation (entityTypeData es) (entityTypeData es')
  /\ Permutation (sourceData es) (sourceData es')
  /\ Permutation (relationshipTypeData rs) (relationshipTypeData rs').
Proof.
  intros He Hr.
  rewrite !EntityTypeChartSpec.entityTypeData_counted,
    !EntityTypeChartSpec.relationshipTypeData_counted,
    !EntityTypeChartSpec.sourceData_counted.
  repeat split; apply ranked_perm_input; now repeat apply Permutation_map.
Qed.

Lemma groupings_order_insensitive_witness :
  Permutation (entityTypeData mixed) (entityTypeData (rev mixed))
  /\ Permutation (sourceData mixed) (sourceData (rev mixed))
  /\ Permutation (relationshipTypeData [officer_of_acme; a_to_b])
       (relationshipTypeData [a_to_b; officer_of_acme]).
Proof.
  apply (groupings_order_insensitive mixed (rev mixed)
           [officer_of_acme; a_to_b] [a_to_b; officer_of_acme]).
  - apply Permutation_rev.
  - apply perm_swap.
Defined.

End EntityTypeChartMore.

(** ** The pattern for the result file *)

Module OutputMatchFacts.

Import Js RouteView.

Local Open Scope string_scope.

Lemma append_nil_r (s : string) : s ++ EmptyString = s.
Proof. induction s as [|c s IH]; simpl; congruence. Qed.

Lemma append_assoc (a b c : string) : (a ++ b) ++ c = a ++ (b ++ c).
Proof. induction a as [|x a IH]; simpl; congruence. Qed.

Lemma strip_prefix_sound p : forall s r,
  strip_prefix p s = Some r -> s = p ++ r.
Proof.
  induction p as [|a p IH]; intros s r; simpl.
  - now intros [= ->].
  - destruct s as [|b s]; [discriminate|].
    destruct (Ascii.eqb a b) eqn:E; [|discriminate].
    apply Ascii.eqb_eq in E. subst b. intros H. now rewrite (IH _ _ H).
Qed.

Lemma strip_prefix_app p s : strip_prefix p (p ++ s) = Some s.
Proof.
  induction p as [|a p IH]; simpl; auto.
  now rewrite Ascii.eqb_refl.
Qed.

Lemma prefix_sound p : forall s,
  String.prefix p s = true -> exists post, s = p ++ post.
Proof.
  induction p as [|a p IH]; intros s.
  - intros _. now exists s.
  - destruct s as [|b s]; simpl; [discriminate|].
    destruct (ascii_dec a b) as [Hab | _]; [|discriminate].
    intros H. destruct (IH _ H) as [post Hpost].
    exists post. now rewrite Hab, Hpost.
Qed.

Lemma token_cons c s :
  token (String c s)
  = if space_at_head (String c s) then EmptyString else String c (token s).
Proof. reflexivity. Qed.

Lemma space_at_head_ascii c s :
  ascii_space c = true -> space_at_head (String c s) = true.
Proof.
  unfold ascii_space, space_at_head. intros H. now rewrite H.
Qed.

Lemma space_at_head_plain c s :
  Nat.ltb (nat_of_ascii c) 128 = true -> ascii_space c = false ->
  space_at_head (String c s) = false.
Proof.
  unfold ascii_space, space_at_head. intros Hlt Hsp.
  apply Nat.ltb_lt in Hlt. rewrite Hsp.
  assert (H1 : Nat.eqb (nat_of_ascii c) 194 = false)
    by (apply Nat.eqb_neq; lia).
  assert (H2 : Nat.eqb (nat_of_ascii c) 225 = false)
    by (apply Nat.eqb_neq; lia).
  assert (H3 : Nat.eqb (nat_of_ascii c) 226 = false)
    by (apply Nat.eqb_neq; lia).
  assert (H4 : Nat.eqb (nat_of_ascii c) 227 = false)
    by (apply Nat.eqb_neq; lia).
  assert (H5 : Nat.eqb (nat_of_ascii c) 239 = false)
    by (apply Nat.eqb_neq; lia).
  destruct s as [|c1 [|c2 s2]]; auto.
  - cbv zeta. now rewrite H1.
  - cbv zeta. now rewrite H1, H2, H3, H4, H5.
Qed.

(** What [token] takes is a prefix free of ASCII white space. *)
Lemma token_sound s :
  no_ascii_space (token s) = true /\ exists post, s = token s ++ post.
Proof.
  induction s as [|c s [IH1 [post IH2]]].
  - split; [reflexivity | now exists EmptyString].
  - rewrite token_cons.
    destruct (space_at_head (String c s)) eqn:E.
    + split; [reflexivity | now exists (String c s)].
    + split.
      * simpl. rewrite IH1, andb_true_r.
        destruct (ascii_space c) eqn:Hc; auto.
        now rewrite (space_at_head_ascii c s Hc) in E.
      * exists post. simpl. now rewrite <- IH2.
Qed.

Lemma no_ascii_space_app a b :
  no_ascii_space (a ++ b) = no_ascii_space a && no_ascii_space b.
Proof.
  induction a as [|c a IH]; simpl; auto.
  now rewrite IH, andb_assoc.
Qed.

Lemma json_prefix_cons c s :
  json_prefix (String c s)
  = match json_prefix s with
    | Some p => Some (String c p)
    | None =>
        if String.prefix ".json" (String c s) then Some ".json" else None
    end.
Proof. reflexivity. Qed.

Lemma json_prefix_sound s : forall p,
  json_prefix s = Some p ->
  exists g post, p = g ++ ".json" /\ s = p ++ post.
Proof.
  induction s as [|c s IH]; intros p; [discriminate|].
  rewrite json_prefix_cons.
  destruct (json_prefix s) as [q|] eqn:E.
  - intros [= <-]. destruct (IH q eq_refl) as [g [post [-> ->]]].
    exists (String c g), post. split; reflexivity.
  - destruct (String.prefix ".json" (String c s)) eqn:Hp; [|discriminate].
    intros [= <-]. apply prefix_sound in Hp. destruct Hp as [post Hp].
    exists EmptyString, post. split; [reflexivity | exact Hp].
Qed.

Lemma json_prefix_self g : json_prefix (g ++ ".json") = Some (g ++ ".json").
Proof.
  induction g as [|c g IH]; [reflexivity|].
  change (String c g ++ ".json") with (String c (g ++ ".json")).
  now rewrite json_prefix_cons, IH.
Qed.

Lemma capture_sound s f :
  capture s = Some f ->
  exists g post,
    g <> EmptyString /\ f = g ++ ".json" /\ s = f ++ post
    /\ no_ascii_space f = true.
Proof.
  unfold capture. destruct (token_sound s) as [Hns [post Hs]].
  destruct (token s) as [|c rest] eqn:Ht; [discriminate|].
  destruct (json_prefix rest) as [p|] eqn:Hj; [|discriminate].
  intros [= <-].
  destruct (json_prefix_sound _ _ Hj) as [g [post' [-> Hrest]]].
  exists (String c g), (post' ++ post). repeat split.
  - discriminate.
  - rewrite Hs, Hrest. simpl. now rewrite append_assoc.
  - rewrite Hrest in Hns. simpl in Hns. rewrite no_ascii_space_app in Hns.
    simpl. apply andb_true_iff in Hns. destruct Hns as [Hc Hr].
    apply andb_true_iff in Hr. destruct Hr as [Hr _].
    now rewrite Hc, Hr.
Qed.

Lemma outputMatch_cons a s :
  outputMatch (String a s)
  = match strip_prefix "data/output/" (String a s) with
    | Some rest =>
        match capture rest with
        | Some name => Some name
        | None => outputMatch s
        end
    | None => outputMatch s
    end.
Proof. reflexivity. Qed.

Lemma token_plain g : forall rest,
  plain g = true -> token (g ++ rest) = g ++ token rest.
Proof.
  induction g as [|c g IH]; intros rest Hp; [reflexivity|].
  simpl in Hp. apply andb_true_iff in Hp. destruct Hp as [Hc Hg].
  apply andb_true_iff in Hc. destruct Hc as [Hlt Hsp].
  apply negb_true_iff in Hsp.
  change (String c g ++ rest) with (String c (g ++ rest)).
  rewrite token_cons, (space_at_head_plain _ _ Hlt Hsp), IH by assumption.
  reflexivity.
Qed.

Lemma token_breaks_off post : breaks_off post = true -> token post = EmptyString.
Proof.
  destruct post as [|c post]; [reflexivity|].
  unfold breaks_off. intros H.
  now rewrite token_cons, (space_at_head_ascii _ _ H).
Qed.

Lemma plain_app a b : plain (a ++ b) = plain a && plain b.
Proof.
  induction a as [|c a IH]; simpl; auto.
  now rewrite IH, andb_assoc.
Qed.

End OutputMatchFacts.

(** ** The analyze endpoint: file names, traces and responses *)

Module RouteMore.

Import Js RouteView OutputMatchFacts Samples.

(** X12: A file name found in the output ends in [.json] after at least one
    character, holds no space, tab or line break, and stands in the output
    right after the text [data/output/]. *)
Theorem outputMatch_sound stdout file :
  outputMatch stdout = Some file ->
  exists stem before after,
    stem <> EmptyString
    /\ file = (stem ++ ".json")%string
    /\ stdout = (before ++ "data/output/" ++ file ++ after)%string
    /\ no_ascii_space file = true.
Proof.
  induction stdout as [|a s IH]; [discriminate|].
  rewrite outputMatch_cons.
  assert (Hrec : outputMatch s = Some file ->
            exists stem before after,
              stem <> EmptyString
              /\ file = (stem ++ ".json")%string
              /\ String a s
                 = (before ++ "data/output/" ++ file ++ after)%string
              /\ no_ascii_space file = true).
  { intros H. destruct (IH H) as [stem [before [after [H1 [H2 [H3 H4]]]]]].
    exists stem, (String a before), after. repeat split; auto.
    now rewrite H3. }
  destruct (strip_prefix "data/output/" (String a s)) as [rest|] eqn:Hs; auto.
  destruct (capture rest) as [name|] eqn:Hc; auto.
  intros [= ->].
  destruct (capture_sound _ _ Hc) as [stem [after [H1 [H2 [H3 H4]]]]].
  exists stem, EmptyString, after. repeat split; auto.
  apply strip_prefix_sound in Hs. now rewrite Hs, H3.
Qed.

Lemma outputMatch_sound_witness :
  exists stem before after,
    stem <> EmptyString
    /\ "acme.json" = (stem ++ ".json")%string
    /\ "saved to data/output/acme.json"
       = (before ++ "data/output/" ++ "acme.json" ++ after)%string
    /\ no_ascii_space "acme.json" = true.
Proof.
  apply (outputMatch_sound "saved to data/output/acme.json" "acme.json").
  reflexivity.
Defined.

(** X13: A result path printed with a plain ASCII stem and followed by white
    space or by nothing is found again: alone on its position it gives back
    the file name, and after any other text some file name is found. *)
Theorem outputMatch_finds stem after :
  plain stem = true -> stem <> EmptyString -> breaks_off after = true ->
  outputMatch ("data/output/" ++ stem ++ ".json" ++ after)%string
  = Some (stem ++ ".json")%string
  /\ forall before,
       outputMatch (before ++ "data/output/" ++ stem ++ ".json" ++ after)%string
       <> None.
Proof.
  intros Hplain Hne Hbreak.
  assert (Hcap : capture (stem ++ ".json" ++ after)%string
                 = Some (stem ++ ".json")%string).
  { unfold capture.
    rewrite <- append_assoc, token_plain, (token_breaks_off _ Hbreak),
      append_nil_r by (rewrite plain_app, Hplain; reflexivity).
    destruct stem as [|c stem]; [congruence|].
    change (String c stem ++ ".json")%string
      with (String c (stem ++ ".json")%string).
    cbv iota beta. now rewrite json_prefix_self. }
  assert (Hhere : outputMatch
                    ("data/output/" ++ stem ++ ".json" ++ after)%string
                  = Some (stem ++ ".json")%string).
  { change ("data/output/" ++ stem ++ ".json" ++ after)%string
      with (String "d" ("ata/output/" ++ stem ++ ".json" ++ after)%string).
    rewrite outputMatch_cons.
    change (String "d" ("ata/output/" ++ stem ++ ".json" ++ after)%string)
      with ("data/output/" ++ (stem ++ ".json" ++ after))%string.
    now rewrite strip_prefix_app, Hcap. }
  split; auto.
  induction before as [|a before IH].
  - intros H. pose proof Hhere as H'.
    change (outputMatch ("data/output/" ++ stem ++ ".json" ++ after)%string)
      with (outputMatch (EmptyString ++ "data/output/" ++ stem ++ ".json"
                           ++ after)%string) in H'.
    congruence.
  - change (String a before ++ "data/output/" ++ stem ++ ".json" ++ after)%string
      with (String a (before ++ "data/output/" ++ stem ++ ".json"
                        ++ after)%string).
    rewrite outputMatch_cons.
    destruct (strip_prefix _ _) as [rest|]; auto.
    destruct (capture rest); [discriminate | auto].
Qed.

Lemma outputMatch_finds_witness :
  outputMatch "data/output/acme_2024.json (done)" = Some "acme_2024.json"
  /\ outputMatch "saved to data/output/acme_2024.json (done)" <> None.
Proof.
  destruct (outputMatch_finds "acme_2024" " (done)") as [H1 H2].
  - reflexivity.
  - discriminate.
  - reflexivity.
  - split; [exact H1 | exact (H2 "saved to ")].
Defined.

(** Walks a handler to each of its responses. *)
Ltac each_response rt :=
  repeat match goal with
         | |- context [destructure ?b] => destruct (destructure b) as [[[[? ?] ?] ?]|]
         | |- context [negb (truthy ?c) || negb (truthy ?d)] =>
             destruct (negb (truthy c) || negb (truthy d))
         | |- context [execAsync rt ?c] =>
             destruct (execAsync rt c) as [? | [? ?]]
         | |- context [outputMatch ?o] => destruct (outputMatch o)
         | |- context [readFile rt ?f] => destruct (readFile rt f)
         | |- context [JSON_parse rt ?t] => destruct (JSON_parse rt t)
         end.

(** X14: Whatever the request and the platform, the first handler answers with
    status 200, 400 or 500; its response carries an error message exactly
    when it is not marked a success; a success has status 200; and the
    [stderr] field is never an empty text. *)
Theorem response_shape rt request_json :
  let response := fst (AppRoute.POST rt request_json) in
  (status response = 200%Z \/ status response = 400%Z
   \/ status response = 500%Z)
  /\ (r_error response <> None <-> r_success response <> Some true)
  /\ (r_success response = Some true -> status response = 200%Z)
  /\ r_stderr response <> Some EmptyString.
Proof.
  assert (Hu : forall s, or_undefined s <> Some EmptyString).
  { intros s. unfold or_undefined.
    destruct (String.eqb s EmptyString) eqn:E; [discriminate|].
    apply String.eqb_neq in E. congruence. }
  cbv zeta. unfold AppRoute.POST.
  destruct request_json as [e | body]; each_response rt; cbn;
    repeat split; auto; try discriminate; try congruence; try tauto;
    try (intros H; exfalso; apply H; reflexivity).
Qed.

Lemma destructure_fields body company country website officer :
  destructure body = Some (company, country, website, officer) ->
  company = property body "company" /\ country = property body "country".
Proof. destruct body; simpl; intros [= <- <- <- <-]; auto. Qed.

(** X15: Neither handler starts the subprocess for a request that fails the
    check of the required fields, starts it more than once, or reads any
    file but the one the subprocess output names under the project root,
    and that one once at most. *)
Theorem handlers_disciplined rt request_json :
  disciplined rt (cwd rt) request_json (snd (AppRoute.POST rt request_json))
  /\ disciplined rt (path_join rt [cwd rt; ".."]) request_json
       (snd (FrontendRoute.POST rt request_json)).
Proof.
  unfold disciplined, AppRoute.POST, FrontendRoute.POST.
  destruct request_json as [e | body]; [split; left; reflexivity|].
  destruct (destructure body) as [[[[company country] website] officer]|]
    eqn:Hd; [|split; left; reflexivity].
  destruct (destructure_fields _ _ _ _ _ Hd) as [-> ->].
  destruct (negb (truthy (property body "company"))
            || negb (truthy (property body "country"))) eqn:Hg;
    [split; left; reflexivity|].
  apply orb_false_iff in Hg. destruct Hg as [Hc Hn].
  apply negb_false_iff in Hc, Hn.
  assert (Hv : valid_request (inr body)) by (exists body; auto).
  cbv zeta. split; right; (split; [exact Hv|]).
  - destruct (execAsync rt _) as [e | [stdout stderr]] eqn:He;
      [left; eexists; reflexivity|].
    destruct (outputMatch stdout) as [file|] eqn:Hm;
      [|left; eexists; reflexivity].
    right. do 2 eexists.
    split; [destruct (readFile rt _) as [?|content];
            [|destruct (JSON_parse rt content)]; reflexivity|].
    exists stdout, stderr, file. auto.
  - destruct (execAsync rt _) as [e | [stdout stderr]] eqn:He;
      [left; eexists; reflexivity|].
    destruct (outputMatch stdout) as [file|] eqn:Hm;
      [|left; eexists; reflexivity].
    right. do 2 eexists.
    split; [destruct (readFile rt _) as [?|content];
            [|destruct (JSON_parse rt content)]; reflexivity|].
    exists stdout, stderr, file. auto.
Qed.

(** X16: When the output names a result file, the first handler answers 200 in
    every case: with the parsed content as data when the file can be read
    and parsed, and otherwise marked a failure, with a fixed error message,
    the message of the read or parse error as details, and the output
    kept. *)
Theorem named_file_outcomes rt body company country website officer
  stdout stderr file :
  destructure body = Some (company, country, website, officer) ->
  truthy company = true -> truthy country = true ->
  execAsync rt (AppRoute.command_of rt (cwd rt) company country website
                  officer) = inr (stdout, stderr) ->
  outputMatch stdout = Some file ->
  let response := fst (AppRoute.POST rt (inr body)) in
  let failed_with message :=
    r_success response = Some false
    /\ r_error response = Some "結果ファイルの読み込みに失敗しました"
    /\ r_details response = Some message
    /\ r_data response = None in
  status response = 200%Z
  /\ r_output response = Some stdout
  /\ match readFile rt (path_join rt [cwd rt; "data"; "output"; file]) with
     | inl (ErrorObj message _) => failed_with message
     | inl (NotError text) => failed_with text
     | inr jsonContent =>
         match JSON_parse rt jsonContent with
         | inl (ErrorObj message _) => failed_with message
         | inl (NotError text) => failed_with text
         | inr analysisResult =>
             r_success response = Some true
             /\ r_data response = Some analysisResult
             /\ r_error response = None
         end
     end.
Proof.
  intros Hd Hc Hn He Hm. cbv zeta. unfold AppRoute.POST.
  rewrite Hd, Hc, Hn. cbn [negb orb]. cbv zeta. rewrite He, Hm.
  destruct (readFile rt _) as [[m d | t] | content]; cbn;
    [repeat split .. |].
  destruct (JSON_parse rt content) as [[m d | t] | v]; cbn; repeat split.
Qed.

Lemma named_file_outcomes_witness :
  (status (fst (AppRoute.POST stale (inr acme_request))) = 200%Z
   /\ r_success (fst (AppRoute.POST stale (inr acme_request))) = Some false
   /\ r_details (fst (AppRoute.POST stale (inr acme_request)))
      = Some "ENOENT: no such file or directory")
  /\ (r_success (fst (AppRoute.POST fruitful (inr acme_request))) = Some true
      /\ r_data (fst (AppRoute.POST fruitful (inr acme_request)))
         = Some (JObject [])).
Proof.
  split.
  - destruct (named_file_outcomes stale acme_request
                (Some (JString "Acme")) (Some (JString "US")) None None
                "saved to data/output/acme.json" "Built acme" "acme.json"
                eq_refl eq_refl eq_refl eq_refl eq_refl)
      as [H1 [_ [H2 [_ [H3 _]]]]].
    repeat split; assumption.
  - destruct (named_file_outcomes fruitful acme_request
                (Some (JString "Acme")) (Some (JString "US")) None None
                "saved to data/output/acme.json" EmptyString "acme.json"
                eq_refl eq_refl eq_refl eq_refl eq_refl)
      as [_ [_ [H2 [H3 _]]]].
    split; assumption.
Defined.

(** X17: The second handler has no inner [catch]: when the named result file
    cannot be read or parsed it answers 500 with the message of that error
    and without the output; and when no file is named its successful
    response carries the subprocess's [stderr] as [error]. *)
Theorem frontend_file_outcomes rt body company country website officer
  stdout stderr :
  destructure body = Some (company, country, website, officer) ->
  truthy company = true -> truthy country = true ->
  execAsync rt (FrontendRoute.command_of rt (path_join rt [cwd rt; ".."])
                  company country website officer) = inr (stdout, stderr) ->
  let response := fst (FrontendRoute.POST rt (inr body)) in
  let failed_with message :=
    status response = 500%Z
    /\ r_success response = Some false
    /\ r_error response = Some message
    /\ r_output response = None in
  match outputMatch stdout with
  | None =>
      status response = 200%Z /\ r_success response = Some true
      /\ r_data response = Some JNull /\ r_error response = Some stderr
  | Some file =>
      match readFile rt (path_join rt [path_join rt [cwd rt; ".."];
                                       "data"; "output"; file]) with
      | inl (ErrorObj message _) => failed_with message
      | inl (NotError _) => failed_with "分析中にエラーが発生しました"
      | inr jsonContent =>
          match JSON_parse rt jsonContent with
          | inl (ErrorObj message _) => failed_with message
          | inl (NotError _) => failed_with "分析中にエラーが発生しました"
          | inr analysisResult =>
              status response = 200%Z /\ r_success response = Some true
              /\ r_data response = Some analysisResult
          end
      end
  end.
Proof.
  intros Hd Hc Hn He. cbv zeta. unfold FrontendRoute.POST.
  rewrite Hd, Hc, Hn. cbn [negb orb]. cbv zeta. rewrite He.
  destruct (outputMatch stdout) as [file|]; [|cbn; repeat split].
  destruct (readFile rt _) as [[m d | t] | content]; cbn;
    [repeat split .. |].
  destruct (JSON_parse rt content) as [[m d | t] | v]; cbn; repeat split.
Qed.

Lemma frontend_file_outcomes_witness :
  status (fst (FrontendRoute.POST stale (inr acme_request))) = 500%Z
  /\ r_success (fst (FrontendRoute.POST stale (inr acme_request)))
     = Some false
  /\ r_error (fst (FrontendRoute.POST stale (inr acme_request)))
     = Some "ENOENT: no such file or directory"
  /\ r_output (fst (FrontendRoute.POST stale (inr acme_request))) = None.
Proof.
  exact (frontend_file_outcomes stale acme_request
           (Some (JString "Acme")) (Some (JString "US")) None None
           "saved to data/output/acme.json" "Built acme"
           eq_refl eq_refl eq_refl eq_refl).
Defined.

End RouteMore.

(** ** The page and the endpoint together *)

Module PageSpec.

Import Js RouteView Page Samples.

Lemma blank_nonempty s : blank s = false -> s <> EmptyString.
Proof. intros H ->. discriminate H. Qed.

Lemma body_fields form :
  property (request_body form) "company" = Some (JString (company form))
  /\ property (request_body form) "country"
     = Some (JString (country_code (country form))).
Proof.
  unfold request_body.
  destruct (String.eqb (website form) EmptyString),
    (String.eqb (officer form) EmptyString); split; reflexivity.
Qed.

Lemma body_destructure form :
  destructure (request_body form)
  = Some (property (request_body form) "company",
          property (request_body form) "country",
          property (request_body form) "website",
          property (request_body form) "officer").
Proof. reflexivity. Qed.

Lemma body_passes form :
  blank (company form) = false ->
  truthy (property (request_body form) "company") = true
  /\ truthy (property (request_body form) "country") = true.
Proof.
  intros Hb. destruct (body_fields form) as [-> ->]. simpl. split.
  - apply negb_true_iff, String.eqb_neq. now apply blank_nonempty.
  - now destruct (country form).
Qed.

(** X18: With a company that is blank the handler sends nothing and only sets
    the error; otherwise it sends the form once, stops loading, and leaves
    the page with either a result and no error or an error and no
    result. *)
Theorem page_settles fetch form st :
  let st' := fst (handleAnalyze fetch form st) in
  let sent := snd (handleAnalyze fetch form st) in
  (blank (company form) = true ->
   sent = None /\ error st' = Some "企業名を入力してください"
   /\ result st' = result st /\ loading st' = loading st
   /\ debugOutput st' = debugOutput st)
  /\ (blank (company form) = false ->
      sent = Some (request_body form) /\ loading st' = false
      /\ ((exists d, result st' = Some d /\ error st' = None)
          \/ (result st' = None /\ error st' <> None))).
Proof.
  cbv zeta. unfold handleAnalyze. split; intros Hb; rewrite Hb.
  - repeat split.
  - destruct (fetch (request_body form)) as [err | data];
      [cbn; repeat split; right; split; [reflexivity | discriminate]|].
    cbv zeta.
    destruct (negb (ok data) || negb _);
      [cbn; repeat split; right; split; [reflexivity | discriminate]|].
    destruct (truthy (r_data data)) eqn:Ht;
      cbn [fst snd loading result error]; repeat split.
    + left. destruct (r_data data) as [d|]; [|discriminate Ht].
      exists d. split; reflexivity.
    + right. split; [reflexivity | discriminate].
Qed.

Lemma page_settles_witness :
  snd (handleAnalyze (app_server barren) acme_form initial)
  = Some (request_body acme_form)
  /\ loading (fst (handleAnalyze (app_server barren) acme_form initial))
     = false.
Proof.
  destruct (page_settles (app_server barren) acme_form initial) as [_ H].
  destruct (H eq_refl) as [H1 [H2 _]]. split; assumption.
Defined.

Lemma ok_iff data : ok data = true <-> (200 <= status data <= 299)%Z.
Proof. unfold ok. rewrite andb_true_iff, !Z.leb_le. tauto. Qed.

(** X19: After a request the page shows a result exactly when the response has
    a status from 200 to 299, is marked a success and carries data that is
    truthy; the result is that data. *)
Theorem result_shown_iff fetch form st d :
  blank (company form) = false ->
  (result (fst (handleAnalyze fetch form st)) = Some d
   <-> exists data,
         fetch (request_body form) = inr data
         /\ (200 <= status data <= 299)%Z
         /\ r_success data = Some true
         /\ r_data data = Some d
         /\ truthy (Some d) = true).
Proof.
  intros Hb. unfold handleAnalyze. rewrite Hb.
  destruct (fetch (request_body form)) as [err | data].
  - cbn. split; [discriminate | intros [data [H _]]; discriminate H].
  - cbv zeta.
    destruct (ok data) eqn:Hok;
      [|cbn; split; [discriminate|];
        intros [data' [[= <-] [Hr _]]];
        apply ok_iff in Hr; congruence].
    destruct (r_success data) as [[|]|] eqn:Hs;
      try (cbn; split; [discriminate|];
           intros [data' [[= <-] [_ [Hs' _]]]]; congruence).
    cbn [negb orb].
    destruct (truthy (r_data data)) eqn:Ht; cbn [fst result].
    + split.
      * intros Hd. exists data. rewrite Hd in Ht.
        repeat split; auto; now apply ok_iff.
      * intros [data' [[= <-] [_ [_ [Hd _]]]]]. exact Hd.
    + split; [discriminate|].
      intros [data' [[= <-] [_ [_ [Hd Ht']]]]]. congruence.
Qed.

Lemma result_shown_iff_witness :
  result (fst (handleAnalyze (app_server fruitful) acme_form initial))
  = Some (JObject []).
Proof.
  apply (result_shown_iff (app_server fruitful) acme_form initial
           (JObject [])); [reflexivity|].
  eexists. split; [reflexivity|].
  vm_compute. repeat split; discriminate.
Defined.

(** X20: A request the page sends always passes the check of the required
    fields: neither handler answers it with 400, and both start the
    subprocess for it. *)
Theorem own_requests_pass rt form :
  blank (company form) = false ->
  status (fst (AppRoute.POST rt (inr (request_body form)))) <> 400%Z
  /\ status (fst (FrontendRoute.POST rt (inr (request_body form)))) <> 400%Z
  /\ snd (AppRoute.POST rt (inr (request_body form))) <> []
  /\ snd (FrontendRoute.POST rt (inr (request_body form))) <> [].
Proof.
  intros Hb. destruct (body_passes form Hb) as [Hc Hn].
  unfold AppRoute.POST, FrontendRoute.POST.
  rewrite body_destructure, Hc, Hn. cbn [negb orb]. cbv zeta.
  repeat split.
  - RouteSpec.each_outcome rt.
  - RouteSpec.each_outcome rt.
  - destruct (execAsync rt _) as [? | [stdout ?]]; [discriminate|].
    destruct (outputMatch stdout); [|discriminate].
    destruct (readFile rt _); [discriminate|].
    destruct (JSON_parse rt _); discriminate.
  - destruct (execAsync rt _) as [? | [stdout ?]]; [discriminate|].
    destruct (outputMatch stdout); [|discriminate].
    destruct (readFile rt _); [discriminate|].
    destruct (JSON_parse rt _); discriminate.
Qed.

Lemma own_requests_pass_witness :
  status (fst (AppRoute.POST barren (inr (request_body acme_form))))
  <> 400%Z.
Proof.
  apply (own_requests_pass barren acme_form). reflexivity.
Defined.

(** X21: When the analysis ends without naming a result file, the first
    handler's answer is a success, but the page shows the error that no
    result data was found, shows no result, and keeps the output for the
    debug view. *)
Theorem page_reports_missing_result rt form st stdout stderr :
  blank (company form) = false ->
  let body := request_body form in
  execAsync rt
    (AppRoute.command_of rt (cwd rt) (property body "company")
       (property body "country") (property body "website")
       (property body "officer")) = inr (stdout, stderr) ->
  outputMatch stdout = None ->
  let st' := fst (handleAnalyze (app_server rt) form st) in
  result st' = None
  /\ error st' = Some "結果データが見つかりませんでした"
  /\ debugOutput st'
     = (if String.eqb stdout EmptyString then debugOutput st
        else Some stdout).
Proof.
  intros Hb body He Hm. destruct (body_passes form Hb) as [Hc Hn].
  cbv zeta. unfold handleAnalyze, app_server, AppRoute.POST.
  rewrite Hb, body_destructure, Hc, Hn. cbn [negb orb]. cbv zeta.
  fold body. rewrite He, Hm. cbn. repeat split.
Qed.

Lemma page_reports_missing_result_witness :
  error (fst (handleAnalyze (app_server barren) acme_form initial))
  = Some "結果データが見つかりませんでした"
  /\ debugOutput (fst (handleAnalyze (app_server barren) acme_form initial))
     = Some "No entities found for Acme".
Proof.
  destruct (page_reports_missing_result barren acme_form initial
              "No entities found for Acme" EmptyString
              eq_refl eq_refl eq_refl) as [_ [H1 H2]].
  split; assumption.
Defined.

Lemma shown_data fetch form st d :
  blank (company form) = false ->
  result (fst (handleAnalyze fetch form st)) = Some d ->
  exists data,
    fetch (request_body form) = inr data
    /\ r_success data = Some true /\ r_data data = Some d.
Proof.
  intros Hb. unfold handleAnalyze. rewrite Hb.
  destruct (fetch (request_body form)) as [err | data]; [discriminate|].
  cbv zeta.
  destruct (r_success data) as [[|]|] eqn:Hs; cbn [negb];
    try (rewrite orb_true_r; discriminate).
  destruct (negb (ok data) || false); [discriminate|].
  destruct (truthy (r_data data)); [|discriminate].
  cbn [fst result]. intros H. exists data. auto.
Qed.

(** X22: A result the page shows behind the first handler is the parsed content
    of the file that the subprocess output named. *)
Theorem page_result_from_file rt form st d :
  blank (company form) = false ->
  result (fst (handleAnalyze (app_server rt) form st)) = Some d ->
  let body := request_body form in
  exists stdout stderr file jsonContent,
    execAsync rt
      (AppRoute.command_of rt (cwd rt) (property body "company")
         (property body "country") (property body "website")
         (property body "officer")) = inr (stdout, stderr)
    /\ outputMatch stdout = Some file
    /\ readFile rt (path_join rt [cwd rt; "data"; "output"; file])
       = inr jsonContent
    /\ JSON_parse rt jsonContent = inr d.
Proof.
  intros Hb Hres body. destruct (body_passes form Hb) as [Hc Hn].
  destruct (shown_data _ _ _ _ Hb Hres) as [data [Hfetch [Hs Hd]]].
  unfold app_server in Hfetch.
  assert (E : fst (AppRoute.POST rt (inr (request_body form))) = data)
    by congruence.
  rewrite <- E in Hs, Hd. clear E Hfetch data.
  unfold AppRoute.POST in Hs, Hd.
  rewrite body_destructure, Hc, Hn in Hs, Hd.
  cbn [negb orb] in Hs, Hd. cbv zeta in Hs, Hd. fold body in Hs, Hd.
  destruct (execAsync rt _) as [e | [stdout stderr]] eqn:He;
    [discriminate Hs|].
  destruct (outputMatch stdout) as [file|] eqn:Hm.
  - destruct (readFile rt _) as [e | content] eqn:Hr; [discriminate Hs|].
    destruct (JSON_parse rt content) as [e | v] eqn:Hp; [discriminate Hs|].
    cbn in Hd. injection Hd as ->.
    exists stdout, stderr, file, content. auto.
  - cbn in Hd. injection Hd as <-.
    unfold handleAnalyze, app_server, AppRoute.POST in Hres.
    rewrite Hb, body_destructure, Hc, Hn in Hres.
    cbn [negb orb] in Hres. cbv zeta in Hres. fold body in Hres.
    rewrite He, Hm in Hres. discriminate Hres.
Qed.

Lemma page_result_from_file_witness :
  exists stdout stderr file jsonContent,
    execAsync fruitful
      (AppRoute.command_of fruitful (cwd fruitful)
         (property (request_body acme_form) "company")
         (property (request_body acme_form) "country")
         (property (request_body acme_form) "website")
         (property (request_body acme_form) "officer"))
    = inr (stdout, stderr)
    /\ outputMatch stdout = Some file
    /\ readFile fruitful
         (path_join fruitful [cwd fruitful; "data"; "output"; file])
       = inr jsonContent
    /\ JSON_parse fruitful jsonContent = inr (JObject []).
Proof.
  apply (page_result_from_file fruitful acme_form initial (JObject []));
    reflexivity.
Defined.

End PageSpec.

(** ** EdgarTimeline: what the two charts count *)

Module EdgarTimelineSpec.

Import JsMap JsMapFacts JsArray JsArrayFacts.
Import EntityTypeChart EntityTypeChartFacts EdgarTimeline Samples.

Lemma sort_map {A B : Type} (f : A -> B) (cmpA : A -> A -> Z)
  (cmpB : B -> B -> Z) :
  (forall a b, cmpB (f a) (f b) = cmpA a b) ->
  forall l, sort cmpB (map f l) = map f (sort cmpA l).
Proof.
  intros Hcmp.
  assert (Hins : forall x l,
            insert cmpB (f x) (map f l) = map f (insert cmpA x l)).
  { intros x l. induction l as [|y l IH]; simpl; auto.
    rewrite Hcmp. destruct (0 <? cmpA x y)%Z; simpl; congruence. }
  induction l as [|x l IH]; simpl; auto.
  now rewrite IH, Hins.
Qed.

Lemma formTypeData_ranked filings :
  formTypeData filings
  = map of_datum (ranked (fold_left bump (forms_of filings) empty)).
Proof.
  unfold formTypeData, ranked, forms_of, entries.
  rewrite fold_bump_map.
  rewrite <- (sort_map of_datum by_value_desc
                (fun a b => (Z.of_nat (count b) - Z.of_nat (count a))%Z));
    [|reflexivity].
  now rewrite map_map.
Qed.

Lemma count_dates filings : forall m,
  fold_left count_date filings m = fold_left bump (dates_of filings) m.
Proof.
  induction filings as [|f filings IH]; intros m; simpl; auto.
  rewrite IH, fold_left_app. unfold count_date.
  destruct (filed_at f) as [d|]; simpl; auto.
  destruct (String.eqb d EmptyString); reflexivity.
Qed.

Lemma weigh_list_sum f out : weigh f out = list_sum (map f out).
Proof. unfold weigh. induction out; simpl; auto. Qed.

(** X23: The chart of form types counts every filing once, a filing without a
    form name under "Unknown": its bars are the form names that occur, each
    with the number of its filings, so the counts sum to the number of
    filings; and the bars come by descending count, equal counts in the
    order of first sight. *)
Theorem formTypeData_tally filings :
  (forall d, In d (formTypeData filings) <->
             In (name d) (forms_of filings)
             /\ count d = occurrences (name d) (forms_of filings))
  /\ list_sum (map count (formTypeData filings)) = List.length filings
  /\ StronglySorted (form_before (forms_of filings)) (formTypeData filings).
Proof.
  rewrite formTypeData_ranked.
  set (ks := forms_of filings).
  pose proof (ranked_tally ks) as Ht.
  split; [|split].
  - intros d. rewrite in_map_iff. split.
    + intros [x [<- Hx]]. apply Ht in Hx. exact Hx.
    + intros H. exists {| EntityTypeChart.name := name d; value := count d |}.
      split; [now destruct d | now apply Ht].
  - rewrite map_map.
    change (fun x => count (of_datum x)) with value.
    rewrite <- weigh_list_sum.
    change (weigh value ?l) with (total l).
    rewrite ranked_total. unfold ks, forms_of. apply length_map.
  - destruct (ranked_ranking ks) as [Hs _]. clear Ht.
    induction Hs as [|x l Hl IH Hx]; simpl; [constructor|].
    constructor; [exact IH|].
    apply Forall_forall. intros y Hy. rewrite Forall_forall in Hx.
    apply in_map_iff in Hy. destruct Hy as [z [<- Hz]].
    exact (Hx z Hz).
Qed.

Section WithCollation.

Variable localeCompare : string -> string -> Z.

(** X24: Whatever the collation of the platform, the timeline counts exactly the
    filings that have a date: its bars are the dates that occur, each with
    the number of its filings, each date once, and the counts sum to the
    number of dated filings, which is at most the number of filings. *)
Theorem chartData_tally filings :
  (forall d, In d (chartData localeCompare filings) <->
             In (date d) (dates_of filings)
             /\ d_count d = occurrences (date d) (dates_of filings))
  /\ NoDup (map date (chartData localeCompare filings))
  /\ list_sum (map d_count (chartData localeCompare filings))
     = List.length (dates_of filings)
  /\ List.length (dates_of filings) <= List.length filings.
Proof.
  unfold chartData. rewrite count_dates.
  set (ks := dates_of filings).
  set (M := fold_left bump ks empty).
  set (row := fun p : string * nat => {| date := fst p; d_count := snd p |}).
  pose proof (sort_perm (fun a b => localeCompare (date a) (date b))
                (map row (entries M))) as Hp.
  assert (Hget : forall d, In d (map row (entries M))
                           <-> get M (date d) = Some (d_count d)).
  { intros d. rewrite in_map_iff. split.
    - intros [[k v] [<- Hin]]. simpl.
      apply In_get; [apply counted_keys_NoDup | exact Hin].
    - intros H. exists (date d, d_count d). split; [now destruct d|].
      now apply get_In. }
  split; [|split; [|split]].
  - intros d. split.
    + intros H. apply (Permutation_in _ Hp) in H. apply Hget in H.
      unfold M in H. rewrite get_counted in H.
      simpl in H.
      destruct (Nat.eqb (occurrences (date d) ks) 0) eqn:E;
        [discriminate|].
      apply Nat.eqb_neq in E. injection H as H.
      split; [now apply occurrences_In | auto].
    + intros [Hin Hc].
      apply (Permutation_in _ (Permutation_sym Hp)). apply Hget.
      unfold M. rewrite get_counted. simpl.
      apply occurrences_In in Hin.
      destruct (Nat.eqb (occurrences (date d) ks) 0) eqn:E.
      * apply Nat.eqb_eq in E. contradiction.
      * now rewrite Hc.
  - apply (Permutation_NoDup
             (Permutation_map date (Permutation_sym Hp))).
    unfold entries. rewrite map_map.
    change (map (fun x => date (row x)) M) with (keys M).
    apply counted_keys_NoDup.
  - rewrite (Permutation_list_sum
               (Permutation_map d_count Hp)).
    unfold entries. rewrite map_map.
    change (fun x => d_count (row x)) with (fun x => value (to_datum x)).
    rewrite <- (map_map to_datum value), <- weigh_list_sum.
    change (weigh value ?l) with (total l).
    apply (total_counted ks empty).
  - unfold ks, dates_of. clear.
    induction filings as [|f filings IH]; simpl; auto.
    rewrite length_app.
    destruct (filed_at f) as [d|]; simpl; [|lia].
    destruct (String.eqb d EmptyString); simpl; lia.
Qed.

End WithCollation.

Example formTypeData_filings4 :
  formTypeData filings4 =
  [ {| name := "10-K"; count := 2 |};
    {| name := "8-K"; count := 1 |};
    {| name := "Unknown"; count := 1 |} ].
Proof. reflexivity. Qed.

End EdgarTimelineSpec.
